(** * Multi-scale Patch-GAN discriminator: architecture assembly and forward pass

    A shallow embedding of [generative/networks/nets/patchgan_discriminator.py]:
    the two constructors ([MultiScaleDiscriminator.__init__] and
    [NLayerDiscriminator.__init__]) and the two [forward] methods, followed by
    the properties of the assembled architecture.

    Conventions of the embedding.
    - Python integers are [Z].  The argument [n_layers_D] is a dynamically
      typed value ([pyval]): the constructors apply [*], [**], [range] and
      [%d] to it, and what these do depends on whether it is an integer or a
      list.
    - The one floating-point expression of the file,
      [float(minimum_size_im) / (2 ** k)], is taken over the rationals ([Q]).
      This is what the source computes when [minimum_size_im] is at most
      [2 ^ 53] in absolute value and [0 <= k <= 1023] ([binary64_exact]);
      outside that range the source rounds, or raises [OverflowError] or
      [ZeroDivisionError], and every statement about the outcome of the size
      check carries the range as a hypothesis.  Likewise
      [int((kernel_size - 1) / 2)] is the exact quotient, as in the source for
      kernel sizes up to [2 ^ 53].
    - A constructor is a computation over the object under construction
      ([self]) that may raise; a raise leaves [self] as it was at that point,
      so one can tell what had been registered by then.
    - [Convolution] is a block of the MONAI library.  It is represented by the
      arguments it was built with; calling it on a tensor is a parameter of the
      forward pass ([Section Forward]), instantiated on shapes in
      [Module Shape]. *)

From Stdlib Require Import ZArith QArith Qpower String Ascii Bool Lia List.
From Stdlib Require Decimal DecimalString DecimalZ.
Import ListNotations.

Local Open Scope string_scope.
Local Open Scope Z_scope.
Local Open Scope list_scope.

(** ** Python values and exceptions *)

Inductive exn : Type :=
| AssertionError (msg : string)
| TypeError (msg : string)
| IndexError (msg : string).

Inductive result (A : Type) : Type :=
| Ok (a : A)
| Raise (e : exn).

Arguments Ok {A} a.
Arguments Raise {A} e.

(** What a caller may pass as [n_layers_D]: an integer or a list of integers. *)
Inductive pyval : Type :=
| PyInt (n : Z)
| PyList (l : list Z).

(** [range(n)] for an integer [n]: empty when [n <= 0]. *)
Definition range (n : Z) : list Z := map Z.of_nat (seq 0 (Z.to_nat n)).

(** [xs * k] on lists: [k] copies of [xs], none when [k <= 0]. *)
Definition list_repeat {A : Type} (xs : list A) (k : Z) : list A :=
  List.concat (repeat xs (Z.to_nat k)).

(** [v * k] with [k] an integer. *)
Definition py_mul (v : pyval) (k : Z) : pyval :=
  match v with
  | PyInt n => PyInt (n * k)
  | PyList l => PyList (list_repeat l k)
  end.

(** [2 ** v]: an integer power for a non-negative integer exponent, the float
    [2.0 ** v] for a negative one, unsupported for a list.  The power is the
    exact rational; as the divisor of a float it is the source's value for
    exponents from 0 to 1023 (above, the source raises [OverflowError] when it
    converts the power; below -1074 the float power is zero and the division
    raises [ZeroDivisionError]). *)
Definition pow2 (v : pyval) : result Q :=
  match v with
  | PyInt k => Ok ((2 # 1) ^ k)%Q
  | PyList _ =>
      Raise (TypeError "unsupported operand type(s) for ** or pow(): 'int' and 'list'")
  end.

(** [range(v)]. *)
Definition py_range (v : pyval) : result (list Z) :=
  match v with
  | PyInt n => Ok (range n)
  | PyList _ => Raise (TypeError "'list' object cannot be interpreted as an integer")
  end.

(** [l[-1]] on a list that may be empty. *)
Definition py_last {A : Type} (l : list A) : result A :=
  match rev l with
  | [] => Raise (IndexError "list index out of range")
  | a :: _ => Ok a
  end.

(** ["%d" % n] on an integer. *)
Definition fmt_d (n : Z) : string := DecimalString.NilZero.string_of_int (Z.to_int n).

(** The [%d] conversion applied to a dynamically typed value. *)
Definition py_fmt_d (v : pyval) : result string :=
  match v with
  | PyInt n => Ok (fmt_d n)
  | PyList _ => Raise (TypeError "%d format: a real number is required, not list")
  end.

(** [x < y] on floats, over the rationals. *)
Definition Qltb (x y : Q) : bool := negb (Qle_bool y x).

(** [int((kernel_size - 1) / 2)]: true division, then truncation toward zero.
    The quotient is exact here; the source's float quotient is the same for
    arguments up to [2 ^ 53] in absolute value. *)
Definition int_half (n : Z) : Z := Z.quot n 2.

(** ** Computations over [self] that may raise *)

Definition M (S A : Type) : Type := S -> result A * S.

Definition ret {S A : Type} (a : A) : M S A := fun s => (Ok a, s).

Definition bind {S A B : Type} (m : M S A) (f : A -> M S B) : M S B :=
  fun s =>
    match m s with
    | (Ok a, s') => f a s'
    | (Raise e, s') => (Raise e, s')
    end.

Definition raise {S A : Type} (e : exn) : M S A := fun s => (Raise e, s).

Definition get {S : Type} : M S S := fun s => (Ok s, s).

Definition modify {S : Type} (f : S -> S) : M S unit := fun s => (Ok tt, f s).

(** An expression that may raise and does not touch [self]. *)
Definition lift {S A : Type} (r : result A) : M S A := fun s => (r, s).

Declare Scope py_scope.
Delimit Scope py_scope with py.
Notation "x <- m ;; k" := (bind m (fun x => k))
  (at level 61, m at next level, right associativity) : py_scope.
Notation "m ;; k" := (bind m (fun _ => k))
  (at level 61, right associativity) : py_scope.

(** A [for] loop whose body updates local variables of type [L]. *)
Fixpoint for_ {S L X : Type} (xs : list X) (locals : L) (body : L -> X -> M S L)
  : M S L :=
  match xs with
  | [] => ret locals
  | x :: xs' => bind (body locals x) (fun locals' => for_ xs' locals' body)
  end.

(** The outcome of calling a constructor: the object, or the exception raised
    together with the object as it was when the exception left the
    constructor. *)
Inductive outcome (S : Type) : Type :=
| Return (self : S)
| Raised (e : exn) (self : S).

Arguments Return {S} self.
Arguments Raised {S} e self.

Definition construct {S : Type} (self0 : S) (body : M S unit) : outcome S :=
  match body self0 with
  | (Ok _, self) => Return self
  | (Raise e, self) => Raised e self
  end.

(** A constructor called from within another one: its exception propagates,
    the partly built object is dropped. *)
Definition call {S T : Type} (o : outcome T) : M S T :=
  match o with
  | Return obj => ret obj
  | Raised e _ => raise e
  end.

(** ** Insertion-ordered dictionaries ([nn.Module._modules]) *)

Fixpoint dict_set {V : Type} (d : list (string * V)) (k : string) (v : V)
  : list (string * V) :=
  match d with
  | [] => [(k, v)]
  | (k', v') :: d' =>
      if String.eqb k' k then (k, v) :: d' else (k', v') :: dict_set d' k v
  end.

Definition dict_values {V : Type} (d : list (string * V)) : list V := map snd d.

Definition dict_keys {V : Type} (d : list (string * V)) : list string := map fst d.

(** ** The convolution block of the library

    [Convolution(spatial_dims, in_channels, out_channels, strides, kernel_size,
    act, norm, dropout, bias, padding)]: convolution, then normalisation,
    dropout and activation.  [padding] is [None] when the caller leaves it
    out. *)
Module Convolution.

Record t : Type := mk {
  spatial_dims : Z;
  kernel_size : Z;
  in_channels : Z;
  out_channels : Z;
  act : string;
  bias : bool;
  norm : string;
  dropout : Q;
  padding : option (list Z);
  strides : Z
}.

End Convolution.

(** ** [class NLayerDiscriminator(nn.Sequential)] *)
Module NLayerDiscriminator.

Record t : Type := mk {
  n_layers_D : pyval;
  n_channels : Z;
  _modules : list (string * Convolution.t)
}.

(** [self.add_module(name, module)] *)
Definition add_module (name : string) (module : Convolution.t) : M t unit :=
  modify (fun self =>
    mk (n_layers_D self) (n_channels self) (dict_set (_modules self) name module)).

(** [self.children()]: the registered modules in insertion order.  (The
    library skips a module object it has already yielded; every module
    registered here is a fresh object.) *)
Definition children (self : t) : list Convolution.t := dict_values (_modules self).

(** The format string of the assertion error with its two [%d] filled in. *)
Definition too_small_format (index_d layers_d : string) : string :=
  ("Your image size is too small to take in up to " ++ index_d
   ++ " discriminators with n_layers = " ++ layers_d
   ++ ".Please reduce n_layers, reduce n_D or enter bigger images.")%string.

(** The format string applied to [(index_D, self.n_layers_D)]. *)
Definition too_small_message (index_D : Z) (layers : pyval) : result string :=
  match py_fmt_d layers with
  | Raise e => Raise e
  | Ok layers_d => Ok (too_small_format (fmt_d index_D) layers_d)
  end.

Definition __init__
    (n_layers_D : pyval) (spatial_dims n_channels in_channels out_channels
     kernel_size : Z) (activation norm : string) (bias : bool)
    (padding : list Z) (index_D : Z) (dropout : Q) (minimum_size_im : Z)
  : outcome t :=
  construct
    (* self.n_layers_D = n_layers_D * (index_D + 1); self.n_channels = n_channels *)
    (mk (py_mul n_layers_D (index_D + 1)) n_channels [])
    (two_k <- lift (pow2 (py_mul n_layers_D (index_D + 1))) ;;
     let output_size := (inject_Z minimum_size_im / two_k)%Q in
     if Qltb output_size 1 then
       self <- get ;;
       msg <- lift (too_small_message index_D (NLayerDiscriminator.n_layers_D self)) ;;
       raise (AssertionError msg)
     else
       self <- get ;;
       layer_range <- lift (py_range (NLayerDiscriminator.n_layers_D self)) ;;
       channels <- for_ layer_range (in_channels, n_channels * 2)
         (fun '(input_channels, output_channels) l_ =>
            let layer :=
              Convolution.mk spatial_dims kernel_size input_channels
                output_channels activation bias norm dropout (Some padding) 2 in
            add_module (fmt_d l_) layer ;;
            ret (output_channels, output_channels * 2)) ;;
       add_module "final_conv"
         (Convolution.mk spatial_dims 1 (fst channels) out_channels activation
            bias norm dropout None 1))%py.

(** [forward]: [apply] is the call of a [Convolution] block on a tensor. *)
Section Forward.
Context {Tensor : Type} (apply : Convolution.t -> Tensor -> Tensor).

(** The list [out] after the loop.  It starts as [[x]] and only grows, so
    [out[-1]] always exists: it is [last out x]. *)
Definition forward_out (self : t) (x : Tensor) : list Tensor :=
  fold_left
    (fun out submodel =>
       let intermediate_output := apply submodel (last out x) in
       out ++ [intermediate_output])
    (children self) [x].

(** [out[1:]] when the features are asked for, [out[-1]] otherwise. *)
Definition forward (self : t) (x : Tensor) (get_intermediate_features : bool)
  : if get_intermediate_features then list Tensor else Tensor :=
  let out := forward_out self x in
  match get_intermediate_features as b
        return if b then list Tensor else Tensor with
  | true => tl out
  | false => last out x
  end.

End Forward.

End NLayerDiscriminator.

(** ** [class MultiScaleDiscriminator(nn.Sequential)] *)
Module MultiScaleDiscriminator.

Record t : Type := mk {
  num_D : Z;
  n_layers_D : pyval;
  n_channels : Z;
  padding : list Z;
  _modules : list (string * NLayerDiscriminator.t)
}.

Definition add_module (name : string) (module : NLayerDiscriminator.t) : M t unit :=
  modify (fun self =>
    mk (num_D self) (n_layers_D self) (n_channels self) (padding self)
       (dict_set (_modules self) name module)).

Definition children (self : t) : list NLayerDiscriminator.t :=
  dict_values (_modules self).

Definition __init__
    (num_D : Z) (n_layers_D : pyval) (spatial_dims n_channels in_channels
     out_channels kernel_size : Z) (activation norm : string) (bias : bool)
    (dropout : Q) (minimum_size_im : Z)
  : outcome t :=
  construct
    (mk num_D n_layers_D n_channels
        (* tuple([int((kernel_size - 1) / 2)] * spatial_dims) *)
        (list_repeat [int_half (kernel_size - 1)] spatial_dims) [])
    (self <- get ;;
     for_ (range (MultiScaleDiscriminator.num_D self)) tt
       (fun _ i =>
          subnetD <- call (NLayerDiscriminator.__init__
                             (MultiScaleDiscriminator.n_layers_D self)
                             spatial_dims
                             (MultiScaleDiscriminator.n_channels self)
                             in_channels out_channels kernel_size activation
                             norm bias (MultiScaleDiscriminator.padding self)
                             i dropout minimum_size_im) ;;
          add_module ("discriminator_" ++ fmt_d i)%string subnetD))%py.

Section Forward.
Context {Tensor : Type} (apply : Convolution.t -> Tensor -> Tensor).

(** What [forward] returns: [out], or [(out, intermediate_features)]. *)
Definition returned (get_intermediate_features : bool) : Type :=
  if get_intermediate_features
  then (list Tensor * list (list Tensor))%type
  else list Tensor.

(** One turn of the loop over [self.children()]; the locals are [out] and
    [intermediate_features] (the latter is only bound when the features are
    asked for, and stays empty otherwise). *)
Definition forward_step (i : Tensor) (get_intermediate_features : bool)
    (locals : list Tensor * list (list Tensor)) (D : NLayerDiscriminator.t)
  : M unit (list Tensor * list (list Tensor)) :=
  let '(out, intermediate_features) := locals in
  match get_intermediate_features as b
        return (if b then list Tensor else Tensor) -> M unit _ with
  | true => fun out_D =>
      (final <- lift (py_last out_D) ;;
       ret (out ++ [final], intermediate_features ++ [removelast out_D]))%py
  | false => fun out_D => ret (out ++ [out_D], intermediate_features)
  end (NLayerDiscriminator.forward apply D i get_intermediate_features).

Definition forward (self : t) (i : Tensor) (get_intermediate_features : bool)
  : result (returned get_intermediate_features) :=
  match fst (for_ (children self) ([], [])
                  (forward_step i get_intermediate_features) tt) with
  | Raise e => Raise e
  | Ok (out, intermediate_features) =>
      Ok (match get_intermediate_features as b return returned b with
          | true => (out, intermediate_features)
          | false => out
          end)
  end.

End Forward.

End MultiScaleDiscriminator.

(** ** Shapes

    The forward pass on shapes [(batch, channels, *spatial)].  The extent of a
    convolution output along one axis is the formula of the tensor library
    (dilation 1); normalisation, dropout and activation keep the shape.  When
    [padding] is [None] the block pads with [(kernel_size - 1) / 2]. *)
Module Shape.

Definition conv_extent (n kernel_size stride pad : Z) : Z :=
  (n + 2 * pad - (kernel_size - 1) - 1) / stride + 1.

Definition paddings (c : Convolution.t) (rank : nat) : list Z :=
  match Convolution.padding c with
  | Some ps => ps
  | None => repeat (int_half (Convolution.kernel_size c - 1)) rank
  end.

Definition apply (c : Convolution.t) (x : list Z) : list Z :=
  match x with
  | batch :: _ :: spatial =>
      batch :: Convolution.out_channels c
        :: map (fun np =>
                  conv_extent (fst np) (Convolution.kernel_size c)
                    (Convolution.strides c) (snd np))
               (combine spatial (paddings c (length spatial)))
  | _ => x
  end.

End Shape.

(** ** The assembled architecture in closed form

    What the constructors are shown to build ([NLayer_init_int],
    [MultiScale_init_built] below): the layer stack of one sub-discriminator
    with [k] stride-2 layers, and the sequence of sub-discriminators. *)
Module Arch.
Section Arch.
Variables (spatial_dims n_channels in_channels out_channels kernel_size : Z).
Variables (activation norm : string) (bias : bool) (padding : list Z) (dropout : Q).

(** Channels entering layer [l] (layer [0] receives the image). *)
Definition channels_into (l : Z) : Z :=
  if l <=? 0 then in_channels else n_channels * 2 ^ l.

Definition down_layer (l : Z) : Convolution.t :=
  Convolution.mk spatial_dims kernel_size (channels_into l)
    (n_channels * 2 ^ (l + 1)) activation bias norm dropout (Some padding) 2.

Definition final_conv (k : Z) : Convolution.t :=
  Convolution.mk spatial_dims 1 (channels_into k) out_channels activation bias
    norm dropout None 1.

Definition down_layers (k : Z) : list (string * Convolution.t) :=
  map (fun l => (fmt_d l, down_layer l)) (range k).

Definition stack (k : Z) : list (string * Convolution.t) :=
  down_layers k ++ [("final_conv", final_conv k)].

Definition subnet (n index_D : Z) : NLayerDiscriminator.t :=
  NLayerDiscriminator.mk (PyInt (n * (index_D + 1))) n_channels
    (stack (n * (index_D + 1))).

Definition subnets (n num_D : Z) : list (string * NLayerDiscriminator.t) :=
  map (fun i => (("discriminator_" ++ fmt_d i)%string, subnet n i)) (range num_D).

End Arch.

(** The outputs of a stack of layers applied one after the other:
    [[layer_0_out; layer_1_out; ...; terminal_out]]. *)
Fixpoint layer_outputs {Tensor : Type} (apply : Convolution.t -> Tensor -> Tensor)
    (layers : list Convolution.t) (x : Tensor) : list Tensor :=
  match layers with
  | [] => []
  | c :: layers' => apply c x :: layer_outputs apply layers' (apply c x)
  end.

End Arch.

(** The quotient the constructor compares with 1. *)
Definition output_size (minimum_size_im k : Z) : Q :=
  (inject_Z minimum_size_im / (2 # 1) ^ k)%Q.

(** The arguments on which the source's float quotient is [output_size]:
    [float(minimum_size_im)] is exact up to [2 ^ 53] in absolute value; for
    [0 <= k <= 1023] the integer [2 ** k] converts to a float exactly; and
    their quotient, an integer of at most 53 bits scaled by a power of two no
    smaller than [2 ^ -1023], is a binary64 number again. *)
Definition binary64_exact (minimum_size_im k : Z) : Prop :=
  - 2 ^ 53 <= minimum_size_im <= 2 ^ 53 /\ 0 <= k <= 1023.

(** * Properties *)

(** ** Basic facts: comparisons, names, dictionaries, loops *)

Lemma Qltb_lt (x y : Q) : Qltb x y = true <-> (x < y)%Q.
Proof.
  unfold Qltb. rewrite negb_true_iff. split.
  - intros H. apply Qnot_le_lt. intros Hle.
    apply Qle_bool_iff in Hle. congruence.
  - intros H. destruct (Qle_bool y x) eqn:E; [|reflexivity].
    apply Qle_bool_iff in E. exfalso. exact (Qlt_not_le _ _ H E).
Qed.

Lemma Qltb_ge (x y : Q) : Qltb x y = false <-> (y <= x)%Q.
Proof.
  unfold Qltb. rewrite negb_false_iff. apply Qle_bool_iff.
Qed.

Lemma output_size_lt_1 (m k : Z) :
  0 <= k -> ((output_size m k < 1)%Q <-> m < 2 ^ k).
Proof.
  intros Hk. unfold output_size.
  assert (Hpos : (0 < (2 # 1) ^ k)%Q) by (apply Qpower_0_lt; reflexivity).
  assert (Hpow : ((2 # 1) ^ k == inject_Z (2 ^ k))%Q).
  { rewrite Zpower_Qpower by assumption. reflexivity. }
  split; intros H.
  - apply (Qmult_lt_r _ _ _ Hpos) in H.
    rewrite Qmult_1_l in H.
    unfold Qdiv in H. rewrite <- Qmult_assoc, (Qmult_comm (/ _)) in H.
    rewrite Qmult_inv_r, Qmult_1_r, Hpow in H by (intros E; rewrite E in Hpos; discriminate).
    now rewrite Zlt_Qlt.
  - apply Qlt_shift_div_r; [assumption|].
    rewrite Qmult_1_l, Hpow. now rewrite <- Zlt_Qlt.
Qed.

Lemma to_int_proper (z : Z) : Z.to_int z <> Decimal.Pos Decimal.Nil /\
                               Z.to_int z <> Decimal.Neg Decimal.Nil.
Proof.
  destruct z; simpl; split; try discriminate;
    intros [= H]; exact (DecimalPos.Unsigned.to_uint_nonnil _ H).
Qed.

Lemma fmt_d_parse (z : Z) :
  DecimalString.NilZero.int_of_string (fmt_d z) = Some (Z.to_int z).
Proof.
  unfold fmt_d. destruct (to_int_proper z).
  now apply DecimalString.NilZero.isi.
Qed.

Lemma fmt_d_inj (a b : Z) : fmt_d a = fmt_d b -> a = b.
Proof.
  intros H. apply DecimalZ.to_int_inj.
  assert (E : Some (Z.to_int a) = Some (Z.to_int b))
    by (rewrite <- !fmt_d_parse; now rewrite H).
  now injection E.
Qed.

Lemma fmt_d_not_final_conv (z : Z) : fmt_d z <> "final_conv".
Proof.
  intros H. pose proof (fmt_d_parse z) as P. rewrite H in P. discriminate P.
Qed.

Lemma range_length (n : Z) : length (range n) = Z.to_nat n.
Proof. unfold range. now rewrite length_map, length_seq. Qed.

Lemma range_In (n i : Z) : In i (range n) <-> 0 <= i < n.
Proof.
  unfold range. rewrite in_map_iff. split.
  - intros (j & <- & Hj). apply in_seq in Hj. lia.
  - intros H. exists (Z.to_nat i). split; [lia|]. apply in_seq. lia.
Qed.

Lemma range_nth (n i : Z) :
  0 <= i < n -> nth_error (range n) (Z.to_nat i) = Some i.
Proof.
  intros H. unfold range.
  rewrite nth_error_map, nth_error_seq.
  destruct (Nat.ltb_spec (Z.to_nat i) (Z.to_nat n)); [|lia].
  simpl. f_equal. lia.
Qed.

Lemma dict_set_fresh {V : Type} (d : list (string * V)) (k : string) (v : V) :
  ~ In k (dict_keys d) -> dict_set d k v = d ++ [(k, v)].
Proof.
  induction d as [|[k' v'] d IH]; simpl; intros H; [reflexivity|].
  destruct (String.eqb_spec k' k) as [->|_]; [tauto|].
  f_equal. apply IH. tauto.
Qed.

(** ** What [NLayerDiscriminator.__init__] builds *)
Section NLayerInit.
Variables (spatial_dims n_channels in_channels out_channels kernel_size : Z).
Variables (activation norm : string) (bias : bool) (padding : list Z) (dropout : Q).

Let channels_into := Arch.channels_into n_channels in_channels.
Let down_layer :=
  Arch.down_layer spatial_dims n_channels in_channels kernel_size activation
    norm bias padding dropout.

(** The loop over the stride-2 layers, started at layer [a] with the names of
    the layers from [a] on still free. *)
Lemma down_loop (len a : nat) (v : pyval) (mods : list (string * Convolution.t)) :
  (forall j, (a <= j)%nat -> ~ In (fmt_d (Z.of_nat j)) (dict_keys mods)) ->
  for_ (map Z.of_nat (seq a len))
       (channels_into (Z.of_nat a), n_channels * 2 ^ (Z.of_nat a + 1))
       (fun '(input_channels, output_channels) l_ =>
          bind (NLayerDiscriminator.add_module (fmt_d l_)
                  (Convolution.mk spatial_dims kernel_size input_channels
                     output_channels activation bias norm dropout
                     (Some padding) 2))
               (fun _ => ret (output_channels, output_channels * 2)))
       (NLayerDiscriminator.mk v n_channels mods)
  = (Ok (channels_into (Z.of_nat (a + len)),
         n_channels * 2 ^ (Z.of_nat (a + len) + 1)),
     NLayerDiscriminator.mk v n_channels
       (mods ++ map (fun l => (fmt_d l, down_layer l))
                    (map Z.of_nat (seq a len)))).
Proof.
  revert a mods. induction len as [|len IH]; intros a mods Hfresh.
  - simpl. unfold ret. now rewrite Nat.add_0_r, app_nil_r.
  - cbn [seq map for_].
    unfold bind at 1. unfold bind at 1.
    unfold NLayerDiscriminator.add_module at 1, modify. cbn [NLayerDiscriminator.n_layers_D
      NLayerDiscriminator.n_channels NLayerDiscriminator._modules ret].
    rewrite dict_set_fresh by (apply Hfresh; lia).
    assert (E : (n_channels * 2 ^ (Z.of_nat a + 1),
                 n_channels * 2 ^ (Z.of_nat a + 1) * 2)
                = (channels_into (Z.of_nat (S a)),
                   n_channels * 2 ^ (Z.of_nat (S a) + 1))).
    { unfold channels_into, Arch.channels_into.
      destruct (Z.leb_spec (Z.of_nat (S a)) 0); [lia|].
      replace (Z.of_nat (S a)) with (Z.of_nat a + 1) by lia.
      f_equal. rewrite (Z.pow_add_r 2 (Z.of_nat a + 1) 1) by lia.
      change (2 ^ 1) with 2. ring. }
    rewrite E. clear E.
    replace (a + S len)%nat with (S a + len)%nat by lia.
    rewrite (IH (S a)).
    + do 2 f_equal. rewrite <- app_assoc. reflexivity.
    + intros j Hj. unfold dict_keys. rewrite map_app, in_app_iff.
      intros [H|[H|[]]].
      * apply (Hfresh j); [lia|exact H].
      * simpl in H. apply fmt_d_inj in H. lia.
Qed.

Lemma down_layers_keys (k : Z) (name : string) :
  In name (dict_keys (Arch.down_layers spatial_dims n_channels in_channels
                        kernel_size activation norm bias padding dropout k)) ->
  exists l, 0 <= l < k /\ name = fmt_d l.
Proof.
  unfold dict_keys, Arch.down_layers. rewrite map_map. simpl.
  rewrite in_map_iff. intros (l & <- & Hl). apply range_In in Hl. eauto.
Qed.

(** With an integer [n_layers_D]: the assertion error when the quotient is
    below 1, raised with nothing registered; the full stack otherwise. *)
Lemma NLayer_init_int (n index_D minimum_size_im : Z) :
  NLayerDiscriminator.__init__ (PyInt n) spatial_dims n_channels in_channels
    out_channels kernel_size activation norm bias padding index_D dropout
    minimum_size_im
  = if Qltb (output_size minimum_size_im (n * (index_D + 1))) 1
    then Raised
           (AssertionError
              (NLayerDiscriminator.too_small_format (fmt_d index_D)
                 (fmt_d (n * (index_D + 1)))))
           (NLayerDiscriminator.mk (PyInt (n * (index_D + 1))) n_channels [])
    else Return (Arch.subnet spatial_dims n_channels in_channels out_channels
                   kernel_size activation norm bias padding dropout n index_D).
Proof.
  unfold NLayerDiscriminator.__init__, construct.
  cbn [py_mul pow2 lift]. unfold bind at 1. unfold lift at 1.
  fold (output_size minimum_size_im (n * (index_D + 1))).
  destruct (Qltb (output_size minimum_size_im (n * (index_D + 1))) 1).
  - reflexivity.
  - unfold bind at 1. unfold get at 1.
    cbn [NLayerDiscriminator.n_layers_D py_range lift].
    unfold bind at 1. unfold lift at 1.
    unfold bind at 1.
    unfold range at 1.
    pose proof (down_loop (Z.to_nat (n * (index_D + 1))) 0
                  (PyInt (n * (index_D + 1))) [] ) as L.
    change (channels_into (Z.of_nat 0)) with in_channels in L.
    change (n_channels * 2 ^ (Z.of_nat 0 + 1)) with (n_channels * 2 ^ 1) in L.
    rewrite Z.pow_1_r in L.
    rewrite L by (intros j _ []). clear L.
    unfold NLayerDiscriminator.add_module, modify.
    cbn [fst NLayerDiscriminator.n_layers_D NLayerDiscriminator.n_channels
         NLayerDiscriminator._modules app].
    rewrite dict_set_fresh.
    + unfold Arch.subnet, Arch.stack, Arch.down_layers, range, down_layer.
      do 4 f_equal. unfold Arch.final_conv. f_equal.
      unfold channels_into, Arch.channels_into. cbn [Nat.add].
      destruct (Z.leb_spec (n * (index_D + 1)) 0) as [H|H].
      * replace (Z.to_nat (n * (index_D + 1))) with 0%nat by lia. reflexivity.
      * rewrite Z2Nat.id by lia.
        destruct (Z.leb_spec (n * (index_D + 1)) 0); [lia|reflexivity].
    + intros H.
      apply (down_layers_keys (n * (index_D + 1))) in H.
      destruct H as (l & _ & H). symmetry in H.
      exact (fmt_d_not_final_conv _ H).
Qed.

(** With a list as [n_layers_D]: [2 ** list] is a type error, raised with
    nothing registered. *)
Lemma NLayer_init_list (l : list Z) (index_D minimum_size_im : Z) :
  NLayerDiscriminator.__init__ (PyList l) spatial_dims n_channels in_channels
    out_channels kernel_size activation norm bias padding index_D dropout
    minimum_size_im
  = Raised
      (TypeError "unsupported operand type(s) for ** or pow(): 'int' and 'list'")
      (NLayerDiscriminator.mk (PyList (list_repeat l (index_D + 1))) n_channels []).
Proof. reflexivity. Qed.

End NLayerInit.

Lemma for_app {S L X : Type} (xs ys : list X) (locals : L)
    (body : L -> X -> M S L) (s : S) :
  for_ (xs ++ ys) locals body s
  = bind (for_ xs locals body) (fun locals' => for_ ys locals' body) s.
Proof.
  revert locals s. induction xs as [|x xs IH]; intros locals s.
  - reflexivity.
  - simpl. unfold bind. destruct (body locals x s) as [[l'|e] s'].
    + rewrite IH. reflexivity.
    + reflexivity.
Qed.

Lemma range_split (n i : Z) :
  0 <= i < n ->
  range n = range i ++ i :: map Z.of_nat (seq (S (Z.to_nat i)) (Z.to_nat n - S (Z.to_nat i))).
Proof.
  intros H. unfold range.
  replace (Z.to_nat n) with (Z.to_nat i + S (Z.to_nat n - S (Z.to_nat i)))%nat at 1 by lia.
  rewrite seq_app, map_app. simpl. rewrite Z2Nat.id by lia. reflexivity.
Qed.

(** Replaces a loop of the goal by its result, as given by the equation [L]
    (up to unfolding of local abbreviations). *)
Ltac run_loop L :=
  match type of L with
  | _ = ?R =>
      match goal with
      | |- context [for_ ?xs ?l ?b ?s] =>
          replace (for_ xs l b s) with R by (symmetry; exact L)
      end
  end.

(** ** What [MultiScaleDiscriminator.__init__] builds *)
Section MultiScaleInit.
Variables (spatial_dims n_channels in_channels out_channels kernel_size : Z).
Variables (activation norm : string) (bias : bool) (dropout : Q).
Variables (minimum_size_im : Z).

Let padding := list_repeat [int_half (kernel_size - 1)] spatial_dims.
Let subnet :=
  Arch.subnet spatial_dims n_channels in_channels out_channels kernel_size
    activation norm bias padding dropout.
Let name (i : Z) : string := ("discriminator_" ++ fmt_d i)%string.

Lemma name_inj (i j : Z) : name i = name j -> i = j.
Proof. unfold name. simpl. intros [= H]. now apply fmt_d_inj. Qed.

(** The loop over the scales, from scale [a], as long as every scale passes
    the size check. *)
Lemma scale_loop (n num_D : Z) (len a : nat)
    (mods : list (string * NLayerDiscriminator.t)) :
  (forall j, (a <= j)%nat -> ~ In (name (Z.of_nat j)) (dict_keys mods)) ->
  (forall j, (a <= j < a + len)%nat ->
     Qltb (output_size minimum_size_im (n * (Z.of_nat j + 1))) 1 = false) ->
  for_ (map Z.of_nat (seq a len)) tt
       (fun (_ : unit) (i : Z) =>
          bind (call (NLayerDiscriminator.__init__ (PyInt n) spatial_dims
                        n_channels in_channels out_channels kernel_size
                        activation norm bias padding i dropout minimum_size_im))
               (fun subnetD => MultiScaleDiscriminator.add_module (name i) subnetD))
       (MultiScaleDiscriminator.mk num_D (PyInt n) n_channels padding mods)
  = (Ok tt,
     MultiScaleDiscriminator.mk num_D (PyInt n) n_channels padding
       (mods ++ map (fun i => (name i, subnet n i)) (map Z.of_nat (seq a len)))).
Proof.
  revert a mods. induction len as [|len IH]; intros a mods Hfresh Hpass.
  - simpl. unfold ret. now rewrite app_nil_r.
  - cbn [seq map for_].
    unfold bind at 1. unfold bind at 1.
    rewrite NLayer_init_int, (Hpass a) by lia.
    cbn [call ret]. unfold MultiScaleDiscriminator.add_module at 1, modify.
    cbn [MultiScaleDiscriminator.num_D MultiScaleDiscriminator.n_layers_D
         MultiScaleDiscriminator.n_channels MultiScaleDiscriminator.padding
         MultiScaleDiscriminator._modules].
    rewrite dict_set_fresh by (apply Hfresh; lia).
    rewrite (IH (S a)).
    + do 2 f_equal. rewrite <- app_assoc. reflexivity.
    + intros j Hj. unfold dict_keys. rewrite map_app, in_app_iff.
      intros [H|[H|[]]].
      * apply (Hfresh j); [lia|exact H].
      * simpl in H. apply name_inj in H. lia.
    + intros j Hj. apply Hpass. lia.
Qed.

(** Every scale passes the size check: all [num_D] sub-discriminators are
    built and registered in index order. *)
Lemma MultiScale_init_built (n num_D : Z) :
  (forall i, 0 <= i < num_D ->
     Qltb (output_size minimum_size_im (n * (i + 1))) 1 = false) ->
  MultiScaleDiscriminator.__init__ num_D (PyInt n) spatial_dims n_channels
    in_channels out_channels kernel_size activation norm bias dropout
    minimum_size_im
  = Return (MultiScaleDiscriminator.mk num_D (PyInt n) n_channels padding
              (Arch.subnets spatial_dims n_channels in_channels out_channels
                 kernel_size activation norm bias padding dropout n num_D)).
Proof.
  intros Hpass.
  unfold MultiScaleDiscriminator.__init__, construct.
  unfold bind at 1. unfold get at 1.
  cbn [MultiScaleDiscriminator.num_D MultiScaleDiscriminator.n_layers_D
       MultiScaleDiscriminator.n_channels MultiScaleDiscriminator.padding].
  unfold range at 1.
  assert (L := scale_loop n num_D (Z.to_nat num_D) 0 []
                 (fun j _ (H : In _ []) => H)
                 (fun j Hj => Hpass (Z.of_nat j) ltac:(lia))).
  run_loop L. reflexivity.
Qed.

(** Scale [i] is the first to fail the size check: the assertion error of
    scale [i] leaves the constructor, with the scales below [i] registered. *)
Lemma MultiScale_init_too_small (n num_D i : Z) :
  0 <= i < num_D ->
  (forall j, 0 <= j < i ->
     Qltb (output_size minimum_size_im (n * (j + 1))) 1 = false) ->
  Qltb (output_size minimum_size_im (n * (i + 1))) 1 = true ->
  MultiScaleDiscriminator.__init__ num_D (PyInt n) spatial_dims n_channels
    in_channels out_channels kernel_size activation norm bias dropout
    minimum_size_im
  = Raised
      (AssertionError
         (NLayerDiscriminator.too_small_format (fmt_d i) (fmt_d (n * (i + 1)))))
      (MultiScaleDiscriminator.mk num_D (PyInt n) n_channels padding
         (Arch.subnets spatial_dims n_channels in_channels out_channels
            kernel_size activation norm bias padding dropout n i)).
Proof.
  intros Hi Hpass Hfail.
  unfold MultiScaleDiscriminator.__init__, construct.
  unfold bind at 1. unfold get at 1.
  cbn [MultiScaleDiscriminator.num_D MultiScaleDiscriminator.n_layers_D
       MultiScaleDiscriminator.n_channels MultiScaleDiscriminator.padding].
  rewrite (range_split num_D i Hi), for_app.
  unfold bind at 1. unfold range at 1.
  assert (L := scale_loop n num_D (Z.to_nat i) 0 []
                 (fun j _ (H : In _ []) => H)
                 (fun j Hj => Hpass (Z.of_nat j) ltac:(lia))).
  run_loop L.
  cbn [for_ app]. unfold bind at 1. unfold bind at 1.
  rewrite NLayer_init_int, Hfail. reflexivity.
Qed.

(** A list as [n_layers_D]: the first sub-discriminator raises the type
    error, nothing is registered.  Without scales the loop does not run. *)
Lemma MultiScale_init_list (l : list Z) (num_D : Z) :
  MultiScaleDiscriminator.__init__ num_D (PyList l) spatial_dims n_channels
    in_channels out_channels kernel_size activation norm bias dropout
    minimum_size_im
  = if 1 <=? num_D
    then Raised
           (TypeError "unsupported operand type(s) for ** or pow(): 'int' and 'list'")
           (MultiScaleDiscriminator.mk num_D (PyList l) n_channels padding [])
    else Return (MultiScaleDiscriminator.mk num_D (PyList l) n_channels padding []).
Proof.
  unfold MultiScaleDiscriminator.__init__, construct.
  unfold bind at 1. unfold get at 1.
  cbn [MultiScaleDiscriminator.num_D MultiScaleDiscriminator.n_layers_D
       MultiScaleDiscriminator.n_channels MultiScaleDiscriminator.padding].
  unfold range.
  destruct (Z.leb_spec 1 num_D) as [H|H].
  - destruct (Z.to_nat num_D) as [|k] eqn:E; [lia|]. reflexivity.
  - replace (Z.to_nat num_D) with 0%nat by lia. reflexivity.
Qed.

End MultiScaleInit.

Lemma last_default {A : Type} (l : list A) (d d' : A) :
  l <> [] -> last l d = last l d'.
Proof.
  induction l as [|a [|b l] IH]; intros H; [contradiction|reflexivity|].
  cbn [last] in *. apply IH. discriminate.
Qed.

(** ** The forward passes *)
Section ForwardFacts.
Context {Tensor : Type} (apply : Convolution.t -> Tensor -> Tensor).

Lemma layer_outputs_length (cs : list Convolution.t) (x : Tensor) :
  length (Arch.layer_outputs apply cs x) = length cs.
Proof.
  revert x. induction cs as [|c cs IH]; intros x; simpl; [reflexivity|].
  now rewrite IH.
Qed.

Lemma layer_outputs_app (cs ds : list Convolution.t) (x : Tensor) :
  Arch.layer_outputs apply (cs ++ ds) x
  = Arch.layer_outputs apply cs x
    ++ Arch.layer_outputs apply ds (last (Arch.layer_outputs apply cs x) x).
Proof.
  revert x. induction cs as [|c cs IH]; intros x; [reflexivity|].
  cbn [app Arch.layer_outputs]. rewrite IH. f_equal. f_equal. f_equal.
  destruct (Arch.layer_outputs apply cs (apply c x)) eqn:E; [reflexivity|].
  rewrite <- E. cbn [last]. rewrite E. now apply last_default.
Qed.

(** The loop of [NLayerDiscriminator.forward], from any non-empty [out]. *)
Lemma forward_loop (cs : list Convolution.t) (out : list Tensor) (x : Tensor) :
  out <> [] ->
  fold_left (fun out submodel => out ++ [apply submodel (last out x)]) cs out
  = out ++ Arch.layer_outputs apply cs (last out x).
Proof.
  revert out. induction cs as [|c cs IH]; intros out Hne.
  - simpl. now rewrite app_nil_r.
  - cbn [fold_left Arch.layer_outputs].
    rewrite IH by (destruct out; discriminate).
    rewrite last_last, <- app_assoc. reflexivity.
Qed.

Lemma NLayer_forward_out (self : NLayerDiscriminator.t) (x : Tensor) :
  NLayerDiscriminator.forward_out apply self x
  = x :: Arch.layer_outputs apply (NLayerDiscriminator.children self) x.
Proof.
  unfold NLayerDiscriminator.forward_out.
  rewrite forward_loop by discriminate. reflexivity.
Qed.

Lemma NLayer_forward_features (self : NLayerDiscriminator.t) (x : Tensor) :
  NLayerDiscriminator.forward apply self x true
  = Arch.layer_outputs apply (NLayerDiscriminator.children self) x.
Proof.
  unfold NLayerDiscriminator.forward. now rewrite NLayer_forward_out.
Qed.

Lemma NLayer_forward_terminal (self : NLayerDiscriminator.t) (x : Tensor) :
  NLayerDiscriminator.forward apply self x false
  = last (Arch.layer_outputs apply (NLayerDiscriminator.children self) x) x.
Proof.
  unfold NLayerDiscriminator.forward. rewrite NLayer_forward_out.
  destruct (Arch.layer_outputs apply (NLayerDiscriminator.children self) x);
    reflexivity.
Qed.

Lemma py_last_ok {A : Type} (l : list A) (d : A) :
  l <> [] -> py_last l = Ok (last l d).
Proof.
  intros H. destruct (exists_last H) as (l' & a & ->).
  unfold py_last.
  now rewrite rev_app_distr, last_last.
Qed.

(** The loop of [MultiScaleDiscriminator.forward] without features. *)
Lemma scales_forward_plain (Ds : list NLayerDiscriminator.t) (i : Tensor)
    (out : list Tensor) (feats : list (list Tensor)) :
  for_ Ds (out, feats) (MultiScaleDiscriminator.forward_step apply i false) tt
  = (Ok (out ++ map (fun D => NLayerDiscriminator.forward apply D i false) Ds,
         feats), tt).
Proof.
  revert out. induction Ds as [|D Ds IH]; intros out.
  - simpl. unfold ret. now rewrite app_nil_r.
  - cbn [for_ map]. unfold bind at 1.
    cbn [MultiScaleDiscriminator.forward_step ret].
    rewrite IH, <- app_assoc. reflexivity.
Qed.

(** The loop of [MultiScaleDiscriminator.forward] with features, over
    sub-discriminators that have at least one layer. *)
Lemma scales_forward_features (Ds : list NLayerDiscriminator.t) (i : Tensor)
    (out : list Tensor) (feats : list (list Tensor)) :
  Forall (fun D => NLayerDiscriminator.children D <> []) Ds ->
  for_ Ds (out, feats) (MultiScaleDiscriminator.forward_step apply i true) tt
  = (Ok (out ++ map (fun D => NLayerDiscriminator.forward apply D i false) Ds,
         feats ++ map (fun D => removelast
                                  (NLayerDiscriminator.forward apply D i true)) Ds),
     tt).
Proof.
  intros HDs. revert out feats.
  induction HDs as [|D Ds HD _ IH]; intros out feats.
  - simpl. unfold ret. now rewrite !app_nil_r.
  - cbn [for_ map]. unfold bind at 1.
    cbn [MultiScaleDiscriminator.forward_step].
    unfold bind at 1. unfold lift at 1.
    rewrite (py_last_ok _ i).
    2:{ rewrite NLayer_forward_features. intros E.
        apply (f_equal (@length _)) in E.
        rewrite layer_outputs_length in E.
        destruct (NLayerDiscriminator.children D); [now apply HD|discriminate]. }
    cbn [ret]. rewrite IH, <- !app_assoc.
    rewrite NLayer_forward_terminal, NLayer_forward_features. reflexivity.
Qed.

Lemma MultiScale_forward_plain (self : MultiScaleDiscriminator.t) (i : Tensor) :
  MultiScaleDiscriminator.forward apply self i false
  = Ok (map (fun D => NLayerDiscriminator.forward apply D i false)
            (MultiScaleDiscriminator.children self)).
Proof.
  unfold MultiScaleDiscriminator.forward.
  rewrite scales_forward_plain. reflexivity.
Qed.

Lemma MultiScale_forward_features (self : MultiScaleDiscriminator.t) (i : Tensor) :
  Forall (fun D => NLayerDiscriminator.children D <> [])
         (MultiScaleDiscriminator.children self) ->
  MultiScaleDiscriminator.forward apply self i true
  = Ok (map (fun D => NLayerDiscriminator.forward apply D i false)
            (MultiScaleDiscriminator.children self),
        map (fun D => removelast (NLayerDiscriminator.forward apply D i true))
            (MultiScaleDiscriminator.children self)).
Proof.
  intros H. unfold MultiScaleDiscriminator.forward.
  rewrite scales_forward_features by assumption. reflexivity.
Qed.

End ForwardFacts.

(** ** Shapes through the stack *)

Lemma list_repeat_singleton {A : Type} (v : A) (k : Z) :
  list_repeat [v] k = repeat v (Z.to_nat k).
Proof.
  unfold list_repeat. induction (Z.to_nat k) as [|m IH]; simpl; [reflexivity|].
  now rewrite IH.
Qed.

Lemma conv_extent_odd_kernel (d kernel_size : Z) :
  1 <= kernel_size -> Z.even kernel_size = false ->
  Shape.conv_extent d kernel_size 2 (int_half (kernel_size - 1)) = (d + 1) / 2.
Proof.
  intros Hk Hodd. rewrite <- Z.negb_odd, negb_false_iff in Hodd.
  apply Z.odd_spec in Hodd as [q ->].
  unfold Shape.conv_extent, int_half.
  rewrite Z.quot_div_nonneg by lia.
  Z.div_mod_to_equations. lia.
Qed.

Lemma conv_extent_even_kernel (d kernel_size : Z) :
  1 <= kernel_size -> Z.even kernel_size = true ->
  Shape.conv_extent d kernel_size 2 (int_half (kernel_size - 1)) = d / 2.
Proof.
  intros Hk Heven. apply Z.even_spec in Heven as [q ->].
  unfold Shape.conv_extent, int_half.
  rewrite Z.quot_div_nonneg by lia.
  Z.div_mod_to_equations. lia.
Qed.

Lemma conv_extent_pointwise (d : Z) :
  Shape.conv_extent d 1 1 (int_half (1 - 1)) = d.
Proof.
  unfold Shape.conv_extent, int_half. simpl. rewrite Z.div_1_r. lia.
Qed.

Lemma iter_half_up (k : nat) (d : Z) :
  Nat.iter k (fun d => (d + 1) / 2) d
  = (d + 2 ^ Z.of_nat k - 1) / 2 ^ Z.of_nat k.
Proof.
  induction k as [|k IH].
  - simpl. rewrite Z.div_1_r. lia.
  - rewrite Nat.iter_succ, IH.
    assert (P : 0 < 2 ^ Z.of_nat k) by (apply Z.pow_pos_nonneg; lia).
    replace (2 ^ Z.of_nat (S k)) with (2 ^ Z.of_nat k * 2)
      by (rewrite Nat2Z.inj_succ, Z.pow_succ_r; lia).
    rewrite <- Z.div_div by lia.
    f_equal.
    rewrite <- (Z.div_add _ 1) by lia. f_equal. lia.
Qed.

Lemma iter_half_down (k : nat) (d : Z) :
  Nat.iter k (fun d => d / 2) d = d / 2 ^ Z.of_nat k.
Proof.
  induction k as [|k IH].
  - simpl. now rewrite Z.div_1_r.
  - rewrite Nat.iter_succ, IH.
    assert (P : 0 < 2 ^ Z.of_nat k) by (apply Z.pow_pos_nonneg; lia).
    replace (2 ^ Z.of_nat (S k)) with (2 ^ Z.of_nat k * 2)
      by (rewrite Nat2Z.inj_succ, Z.pow_succ_r; lia).
    rewrite Z.div_div by lia. reflexivity.
Qed.

(** Rounding up and rounding down agree on multiples of the divisor. *)
Lemma div_up_exact (d p : Z) : 0 < p -> (p | d) -> (d + p - 1) / p = d / p.
Proof.
  intros Hp [q ->].
  rewrite Z.div_mul by lia.
  replace (q * p + p - 1) with (p - 1 + q * p) by lia.
  rewrite Z.div_add by lia. rewrite Z.div_small by lia. lia.
Qed.

Lemma map_combine_repeat {A B C : Type} (f : A -> B -> C) (xs : list A) (p : B) :
  map (fun np => f (fst np) (snd np)) (combine xs (repeat p (length xs)))
  = map (fun n => f n p) xs.
Proof.
  induction xs as [|x xs IH]; simpl; [reflexivity|]. now rewrite IH.
Qed.

Lemma map_iter {A : Type} (f : A -> A) (k : nat) (xs : list A) :
  map f (map (Nat.iter k f) xs) = map (Nat.iter (S k) f) xs.
Proof. rewrite map_map. reflexivity. Qed.

Section ShapeFacts.
Variables (spatial_dims n_channels in_channels out_channels kernel_size : Z).
Variables (activation norm : string) (bias : bool) (dropout : Q).

Let pad := int_half (kernel_size - 1).
Let padding := repeat pad (Z.to_nat spatial_dims).
Let down_layer :=
  Arch.down_layer spatial_dims n_channels in_channels kernel_size activation
    norm bias padding dropout.
Let final_conv :=
  Arch.final_conv spatial_dims n_channels in_channels out_channels activation
    norm bias dropout.
Let half (d : Z) : Z := Shape.conv_extent d kernel_size 2 pad.

Lemma down_layer_shape (l batch ch : Z) (sp : list Z) :
  length sp = Z.to_nat spatial_dims ->
  Shape.apply (down_layer l) (batch :: ch :: sp)
  = batch :: n_channels * 2 ^ (l + 1) :: map half sp.
Proof.
  intros Hlen. unfold Shape.apply, Shape.paddings. simpl.
  unfold padding. rewrite <- Hlen.
  rewrite (map_combine_repeat
             (fun n p => Shape.conv_extent n kernel_size 2 p) sp pad).
  reflexivity.
Qed.

Lemma final_conv_shape (k batch ch : Z) (sp : list Z) :
  Shape.apply (final_conv k) (batch :: ch :: sp) = batch :: out_channels :: sp.
Proof.
  unfold Shape.apply, Shape.paddings, final_conv, Arch.final_conv.
  cbn [Convolution.padding Convolution.kernel_size Convolution.strides
       Convolution.out_channels].
  rewrite (map_combine_repeat (fun n p => Shape.conv_extent n 1 1 p) sp
             (int_half (1 - 1))).
  do 2 f_equal. rewrite <- (map_id sp) at 2.
  apply map_ext. intros d. apply conv_extent_pointwise.
Qed.

(** The shape after the first [len] stride-2 layers. *)
Lemma down_layers_shape (len : nat) (batch ch : Z) (sp : list Z) :
  length sp = Z.to_nat spatial_dims ->
  exists ch',
    last (Arch.layer_outputs Shape.apply
            (map down_layer (map Z.of_nat (seq 0 len))) (batch :: ch :: sp))
         (batch :: ch :: sp)
    = batch :: ch' :: map (Nat.iter len half) sp.
Proof.
  intros Hlen. induction len as [|len [ch' IH]].
  - exists ch. simpl. now rewrite map_id.
  - exists (n_channels * 2 ^ (Z.of_nat len + 1)).
    rewrite seq_S, !map_app, layer_outputs_app. simpl.
    rewrite last_last, IH.
    rewrite down_layer_shape by (now rewrite length_map).
    now rewrite map_iter.
Qed.

(** The terminal output of a sub-discriminator with [k] stride-2 layers. *)
Lemma subnet_terminal_shape (n index_D batch ch : Z) (sp : list Z) :
  length sp = Z.to_nat spatial_dims ->
  NLayerDiscriminator.forward Shape.apply
    (Arch.subnet spatial_dims n_channels in_channels out_channels kernel_size
       activation norm bias padding dropout n index_D)
    (batch :: ch :: sp) false
  = batch :: out_channels
      :: map (Nat.iter (Z.to_nat (n * (index_D + 1))) half) sp.
Proof.
  intros Hlen. rewrite NLayer_forward_terminal.
  unfold NLayerDiscriminator.children, Arch.subnet, Arch.stack, Arch.down_layers,
    dict_values, range.
  cbn [NLayerDiscriminator._modules].
  rewrite map_app, map_map. cbn [map snd].
  rewrite layer_outputs_app. cbn [Arch.layer_outputs].
  rewrite last_last.
  destruct (down_layers_shape (Z.to_nat (n * (index_D + 1))) batch ch sp Hlen)
    as [ch' E].
  transitivity
    (Shape.apply (final_conv (n * (index_D + 1)))
       (batch :: ch' :: map (Nat.iter (Z.to_nat (n * (index_D + 1))) half) sp)).
  - f_equal. exact E.
  - apply final_conv_shape.
Qed.

End ShapeFacts.

(** ** Constructions that return *)

Lemma first_failure (P : Z -> bool) (n : Z) :
  (forall i, 0 <= i < n -> P i = false)
  \/ (exists i, 0 <= i < n /\ P i = true /\ forall j, 0 <= j < i -> P j = false).
Proof.
  destruct (Z.lt_ge_cases n 0) as [Hn|Hn]; [left; intros; lia|].
  rewrite <- (Z2Nat.id n Hn). clear Hn.
  induction (Z.to_nat n) as [|m IH].
  - left. intros; lia.
  - destruct IH as [IH|(i & Hi & Ht & Hf)].
    + destruct (P (Z.of_nat m)) eqn:E.
      * right. exists (Z.of_nat m). split; [lia|]. split; [exact E|].
        intros j Hj. apply IH. lia.
      * left. intros i Hi.
        destruct (Z.eq_dec i (Z.of_nat m)) as [->|]; [exact E|apply IH; lia].
    + right. exists i. split; [lia|]. now split.
Qed.

Section Returned.
Variables (spatial_dims n_channels in_channels out_channels kernel_size : Z).
Variables (activation norm : string) (bias : bool) (dropout : Q).

Let padding := list_repeat [int_half (kernel_size - 1)] spatial_dims.

Lemma NLayer_init_Return (n index_D minimum_size_im : Z) (pad : list Z)
    (D : NLayerDiscriminator.t) :
  NLayerDiscriminator.__init__ (PyInt n) spatial_dims n_channels in_channels
    out_channels kernel_size activation norm bias pad index_D dropout
    minimum_size_im = Return D ->
  Qltb (output_size minimum_size_im (n * (index_D + 1))) 1 = false
  /\ D = Arch.subnet spatial_dims n_channels in_channels out_channels
           kernel_size activation norm bias pad dropout n index_D.
Proof.
  rewrite NLayer_init_int.
  destruct (Qltb (output_size minimum_size_im (n * (index_D + 1))) 1);
    [discriminate|].
  intros [= <-]. now split.
Qed.

Lemma MultiScale_init_Return (n num_D minimum_size_im : Z)
    (net : MultiScaleDiscriminator.t) :
  MultiScaleDiscriminator.__init__ num_D (PyInt n) spatial_dims n_channels
    in_channels out_channels kernel_size activation norm bias dropout
    minimum_size_im = Return net ->
  (forall i, 0 <= i < num_D ->
     Qltb (output_size minimum_size_im (n * (i + 1))) 1 = false)
  /\ net = MultiScaleDiscriminator.mk num_D (PyInt n) n_channels padding
             (Arch.subnets spatial_dims n_channels in_channels out_channels
                kernel_size activation norm bias padding dropout n num_D).
Proof.
  intros H.
  destruct (first_failure
              (fun i => Qltb (output_size minimum_size_im (n * (i + 1))) 1) num_D)
    as [Hall|(i & Hi & Hfail & Hbefore)].
  - split; [exact Hall|].
    rewrite MultiScale_init_built in H by exact Hall. now injection H.
  - rewrite MultiScale_init_too_small with (i := i) in H by assumption.
    discriminate H.
Qed.

Lemma subnets_children (n num_D count : Z) (v : pyval) (pad : list Z) :
  MultiScaleDiscriminator.children
    (MultiScaleDiscriminator.mk count v n_channels pad
       (Arch.subnets spatial_dims n_channels in_channels out_channels
          kernel_size activation norm bias padding dropout n num_D))
  = map (Arch.subnet spatial_dims n_channels in_channels out_channels
           kernel_size activation norm bias padding dropout n) (range num_D).
Proof.
  unfold MultiScaleDiscriminator.children, dict_values, Arch.subnets.
  cbn [MultiScaleDiscriminator._modules]. now rewrite map_map.
Qed.

Lemma subnet_children (n index_D : Z) (pad : list Z) :
  NLayerDiscriminator.children
    (Arch.subnet spatial_dims n_channels in_channels out_channels kernel_size
       activation norm bias pad dropout n index_D)
  = map (Arch.down_layer spatial_dims n_channels in_channels kernel_size
           activation norm bias pad dropout) (range (n * (index_D + 1)))
    ++ [Arch.final_conv spatial_dims n_channels in_channels out_channels
          activation norm bias dropout (n * (index_D + 1))].
Proof.
  unfold NLayerDiscriminator.children, dict_values, Arch.subnet, Arch.stack,
    Arch.down_layers.
  cbn [NLayerDiscriminator._modules]. rewrite map_app, map_map. reflexivity.
Qed.

Lemma subnet_children_length (n index_D : Z) (pad : list Z) :
  length (NLayerDiscriminator.children
            (Arch.subnet spatial_dims n_channels in_channels out_channels
               kernel_size activation norm bias pad dropout n index_D))
  = S (Z.to_nat (n * (index_D + 1))).
Proof.
  rewrite subnet_children, length_app, length_map, range_length. simpl. lia.
Qed.

Lemma subnets_nonempty (n num_D : Z) :
  Forall (fun D => NLayerDiscriminator.children D <> [])
    (map (Arch.subnet spatial_dims n_channels in_channels out_channels
            kernel_size activation norm bias padding dropout n) (range num_D)).
Proof.
  apply Forall_forall. intros D HD. apply in_map_iff in HD as (i & <- & _).
  intros E. apply (f_equal (@length _)) in E.
  rewrite subnet_children_length in E. discriminate E.
Qed.

End Returned.

(** ** Terminal shapes of all the scales *)

Lemma removelast_length {A : Type} (l : list A) :
  length (removelast l) = pred (length l).
Proof.
  rewrite removelast_firstn_len, length_firstn. lia.
Qed.

Lemma iter_ext {A : Type} (f g : A -> A) (k : nat) (a : A) :
  (forall x, f x = g x) -> Nat.iter k f a = Nat.iter k g a.
Proof.
  intros E. induction k as [|k IH]; [reflexivity|].
  now rewrite !Nat.iter_succ, IH, E.
Qed.

(** [k] stride-2 layers of kernel size [kernel_size] and padding
    [int((kernel_size - 1) / 2)] divide an extent by [2 ^ k], rounding down
    for an even kernel size and up for an odd one. *)
Lemma iter_conv_extent (kernel_size k d : Z) :
  1 <= kernel_size -> 0 <= k ->
  Nat.iter (Z.to_nat k)
    (fun d => Shape.conv_extent d kernel_size 2 (int_half (kernel_size - 1))) d
  = if Z.even kernel_size then d / 2 ^ k else (d + 2 ^ k - 1) / 2 ^ k.
Proof.
  intros Hks Hk. destruct (Z.even kernel_size) eqn:E.
  - rewrite (iter_ext _ (fun d => d / 2))
      by (intros x; now apply conv_extent_even_kernel).
    rewrite iter_half_down, Z2Nat.id by exact Hk. reflexivity.
  - rewrite (iter_ext _ (fun d => (d + 1) / 2))
      by (intros x; now apply conv_extent_odd_kernel).
    rewrite iter_half_up, Z2Nat.id by exact Hk. reflexivity.
Qed.

Lemma terminal_shapes
    (num_D n spatial_dims n_channels in_channels out_channels kernel_size : Z)
    (activation norm : string) (bias : bool) (dropout : Q)
    (batch ch : Z) (sp : list Z) :
  1 <= kernel_size -> 0 <= n -> length sp = Z.to_nat spatial_dims ->
  map (fun D => NLayerDiscriminator.forward Shape.apply D (batch :: ch :: sp) false)
      (map (Arch.subnet spatial_dims n_channels in_channels out_channels
              kernel_size activation norm bias
              (list_repeat [int_half (kernel_size - 1)] spatial_dims) dropout n)
           (range num_D))
  = map (fun j =>
           batch :: out_channels
             :: map (fun d =>
                       if Z.even kernel_size then d / 2 ^ (n * (j + 1))
                       else (d + 2 ^ (n * (j + 1)) - 1) / 2 ^ (n * (j + 1)))
                    sp)
        (range num_D).
Proof.
  intros Hks Hn Hlen. rewrite map_map. apply map_ext_in.
  intros j Hj. apply range_In in Hj.
  rewrite list_repeat_singleton, subnet_terminal_shape by exact Hlen.
  do 2 f_equal. apply map_ext. intros d.
  apply iter_conv_extent; [exact Hks|]. apply Z.mul_nonneg_nonneg; lia.
Qed.

(** * The claims *)

(** ** Construction: the layer count argument *)

(** C1, as stated, fails: a per-scale sequence [[3; 4; 5]] with [num_D = 3]
    (lengths agree) does not give sub-discriminators with 3, 4 and 5 layers.
    Construction raises a type error in the first sub-discriminator, and the
    very same error is raised when the lengths disagree ([num_D = 5]): there
    is no count-mismatch check. *)
Lemma C1_sequence_of_matching_length_is_rejected :
  ~ (exists net,
        MultiScaleDiscriminator.__init__ 3 (PyList [3; 4; 5]) 2 8 3 1 3
          "LEAKYRELU" "instance" false (1 # 10) 256 = Return net
        /\ map NLayerDiscriminator.n_layers_D
             (MultiScaleDiscriminator.children net)
           = [PyInt 3; PyInt 4; PyInt 5])
  /\ MultiScaleDiscriminator.__init__ 3 (PyList [3; 4; 5]) 2 8 3 1 3
       "LEAKYRELU" "instance" false (1 # 10) 256
     = Raised
         (TypeError "unsupported operand type(s) for ** or pow(): 'int' and 'list'")
         (MultiScaleDiscriminator.mk 3 (PyList [3; 4; 5]) 8 [1; 1] [])
  /\ MultiScaleDiscriminator.__init__ 5 (PyList [3; 4; 5]) 2 8 3 1 3
       "LEAKYRELU" "instance" false (1 # 10) 256
     = Raised
         (TypeError "unsupported operand type(s) for ** or pow(): 'int' and 'list'")
         (MultiScaleDiscriminator.mk 5 (PyList [3; 4; 5]) 8 [1; 1] []).
Proof.
  split; [|split; reflexivity].
  intros (net & H & _). discriminate H.
Qed.

(** C1, amended: the constructor never looks at the length of a sequence
    given as [n_layers_D].  With at least one scale, any sequence - whatever
    its length - makes the first sub-discriminator raise a type error, and the
    error leaves the constructor with no sub-discriminator registered; with no
    scale at all the loop does not run and construction returns an empty
    discriminator. *)
Theorem C1_sequence_layer_counts_raise_type_error
    (l : list Z) (num_D spatial_dims n_channels in_channels out_channels
     kernel_size : Z) (activation norm : string) (bias : bool) (dropout : Q)
    (minimum_size_im : Z) :
  MultiScaleDiscriminator.__init__ num_D (PyList l) spatial_dims n_channels
    in_channels out_channels kernel_size activation norm bias dropout
    minimum_size_im
  = if 1 <=? num_D
    then Raised
           (TypeError "unsupported operand type(s) for ** or pow(): 'int' and 'list'")
           (MultiScaleDiscriminator.mk num_D (PyList l) n_channels
              (list_repeat [int_half (kernel_size - 1)] spatial_dims) [])
    else Return
           (MultiScaleDiscriminator.mk num_D (PyList l) n_channels
              (list_repeat [int_half (kernel_size - 1)] spatial_dims) []).
Proof. apply MultiScale_init_list. Qed.

(** ** The configuration of the 2D test *)

(** C2, as stated, fails on the lengths of the feature lists: for the
    configuration of the repository's 2D test the two lists do not have 4 and
    7 elements. *)
Lemma C2_feature_lists_are_not_4_and_7_long :
  ~ (exists net out intermediate_features,
        MultiScaleDiscriminator.__init__ 2 (PyInt 3) 2 8 3 1 3 "LEAKYRELU"
          "instance" false (1 # 10) 256 = Return net
        /\ MultiScaleDiscriminator.forward Shape.apply net [1; 3; 256; 512] true
           = Ok (out, intermediate_features)
        /\ map (@length _) intermediate_features = [4%nat; 7%nat]).
Proof.
  intros (net & out & feats & Hnet & Hfwd & Hlen).
  vm_compute in Hnet. injection Hnet as <-.
  vm_compute in Hfwd. injection Hfwd as _ <-.
  vm_compute in Hlen. discriminate Hlen.
Qed.

(** C2, amended: with [num_D = 2], layer count 3, two spatial dimensions, one
    output channel, [minimum_size_im = 256] and any kernel size of at least 1,
    construction returns; the effective layer counts are 3 and 6; on an input
    of shape (1, 3, 256, 512) the terminal outputs have shapes (1, 1, 32, 64)
    and (1, 1, 4, 8); and the two feature lists have 3 and 6 elements - the
    outputs of the stride-2 layers, the terminal output not among them. *)
Theorem C2_two_scales_of_three_and_six_layers
    (n_channels in_channels kernel_size : Z) (activation norm : string)
    (bias : bool) (dropout : Q) :
  1 <= kernel_size ->
  exists net out intermediate_features,
    MultiScaleDiscriminator.__init__ 2 (PyInt 3) 2 n_channels in_channels 1
      kernel_size activation norm bias dropout 256 = Return net
    /\ map NLayerDiscriminator.n_layers_D (MultiScaleDiscriminator.children net)
       = [PyInt 3; PyInt 6]
    /\ MultiScaleDiscriminator.forward Shape.apply net [1; 3; 256; 512] true
       = Ok (out, intermediate_features)
    /\ out = [[1; 1; 32; 64]; [1; 1; 4; 8]]
    /\ map (@length _) intermediate_features = [3%nat; 6%nat].
Proof.
  intros Hks. do 3 eexists. split; [|split; [|split; [|split]]].
  - apply MultiScale_init_built. intros i Hi.
    assert (i = 0 \/ i = 1) as [-> | ->] by lia; vm_compute; reflexivity.
  - rewrite subnets_children. reflexivity.
  - apply MultiScale_forward_features.
    rewrite subnets_children. apply subnets_nonempty.
  - rewrite subnets_children.
    rewrite (terminal_shapes 2 3 2 n_channels in_channels 1 kernel_size
               activation norm bias dropout 1 3 [256; 512] Hks)
      by (reflexivity || lia).
    destruct (Z.even kernel_size); reflexivity.
  - rewrite subnets_children, !map_map.
    change (range 2) with [0; 1]. cbn [map].
    rewrite !removelast_length, !NLayer_forward_features,
      !layer_outputs_length, !subnet_children_length.
    reflexivity.
Qed.

Lemma C2_with_the_kernel_size_of_the_tests :
  exists net out intermediate_features,
    MultiScaleDiscriminator.__init__ 2 (PyInt 3) 2 8 3 1 3 "LEAKYRELU"
      "instance" false (1 # 10) 256 = Return net
    /\ map NLayerDiscriminator.n_layers_D (MultiScaleDiscriminator.children net)
       = [PyInt 3; PyInt 6]
    /\ MultiScaleDiscriminator.forward Shape.apply net [1; 3; 256; 512] true
       = Ok (out, intermediate_features)
    /\ out = [[1; 1; 32; 64]; [1; 1; 4; 8]]
    /\ map (@length _) intermediate_features = [3%nat; 6%nat].
Proof.
  apply (C2_two_scales_of_three_and_six_layers 8 3 3 "LEAKYRELU" "instance"
           false (1 # 10)).
  lia.
Defined.

(** ** Construction: the size check *)

(** C3: with an integer layer count, and on arguments where the float
    quotient is exact ([binary64_exact]): a sub-discriminator whose quotient
    [minimum_size_im / 2 ^ (n_layers_D * (index_D + 1))] is below 1 raises the
    assertion error whose text carries the scale index and the effective layer
    count, with no layer registered; the multi-scale constructor returns when
    the quotient is at least 1 at every scale, and otherwise lets the error of
    the first offending scale through. *)
Theorem C3_input_too_small_is_a_construction_error
    (n spatial_dims n_channels in_channels out_channels kernel_size : Z)
    (activation norm : string) (bias : bool) (dropout : Q)
    (minimum_size_im : Z) :
  (forall (padding : list Z) (index_D : Z),
      binary64_exact minimum_size_im (n * (index_D + 1)) ->
      (output_size minimum_size_im (n * (index_D + 1)) < 1)%Q ->
      NLayerDiscriminator.__init__ (PyInt n) spatial_dims n_channels
        in_channels out_channels kernel_size activation norm bias padding
        index_D dropout minimum_size_im
      = Raised
          (AssertionError
             (NLayerDiscriminator.too_small_format (fmt_d index_D)
                (fmt_d (n * (index_D + 1)))))
          (NLayerDiscriminator.mk (PyInt (n * (index_D + 1))) n_channels []))
  /\ (forall num_D,
        (forall i, 0 <= i < num_D ->
           binary64_exact minimum_size_im (n * (i + 1))
           /\ (1 <= output_size minimum_size_im (n * (i + 1)))%Q) ->
        exists net,
          MultiScaleDiscriminator.__init__ num_D (PyInt n) spatial_dims
            n_channels in_channels out_channels kernel_size activation norm
            bias dropout minimum_size_im = Return net)
  /\ (forall num_D i,
        0 <= i < num_D ->
        (forall j, 0 <= j < i ->
           binary64_exact minimum_size_im (n * (j + 1))
           /\ (1 <= output_size minimum_size_im (n * (j + 1)))%Q) ->
        binary64_exact minimum_size_im (n * (i + 1)) ->
        (output_size minimum_size_im (n * (i + 1)) < 1)%Q ->
        exists partial,
          MultiScaleDiscriminator.__init__ num_D (PyInt n) spatial_dims
            n_channels in_channels out_channels kernel_size activation norm
            bias dropout minimum_size_im
          = Raised
              (AssertionError
                 (NLayerDiscriminator.too_small_format (fmt_d i)
                    (fmt_d (n * (i + 1)))))
              partial
          /\ length (MultiScaleDiscriminator.children partial) = Z.to_nat i).
Proof.
  split; [|split].
  - intros padding index_D _ H. apply Qltb_lt in H.
    now rewrite NLayer_init_int, H.
  - intros num_D H. eexists. apply MultiScale_init_built.
    intros i Hi. apply Qltb_ge, H, Hi.
  - intros num_D i Hi Hbefore _ Hfail. eexists. split.
    + apply MultiScale_init_too_small with (i := i); [exact Hi| |].
      * intros j Hj. apply Qltb_ge, Hbefore, Hj.
      * now apply Qltb_lt.
    + rewrite subnets_children, length_map. apply range_length.
Qed.

(** The configuration of the repository's too-small test: two scales, six
    layers, minimum size 256.  Scale 0 passes (256 / 2^6 = 4), scale 1 does
    not (256 / 2^12 < 1). *)
Lemma C3_too_small_test_case :
  exists partial,
    MultiScaleDiscriminator.__init__ 2 (PyInt 6) 2 8 3 1 3 "LEAKYRELU"
      "instance" false (1 # 10) 256
    = Raised
        (AssertionError
           (NLayerDiscriminator.too_small_format (fmt_d 1) (fmt_d (6 * (1 + 1)))))
        partial
    /\ length (MultiScaleDiscriminator.children partial) = Z.to_nat 1.
Proof.
  apply (proj2 (proj2 (C3_input_too_small_is_a_construction_error
                         6 2 8 3 1 3 "LEAKYRELU" "instance" false (1 # 10) 256))).
  - lia.
  - intros j Hj. assert (j = 0) as -> by lia. split.
    + unfold binary64_exact. lia.
    + vm_compute. discriminate.
  - unfold binary64_exact. lia.
  - vm_compute. reflexivity.
Defined.

(** ** Shapes of the terminal outputs *)

(** C4, as stated, fails on extents that are not multiples of [2 ^ k]: with
    the kernel size 3 of the repository's tests and a 257 x 513 image, the
    terminal outputs of the two scales are 33 x 65 and 5 x 9, not
    [257 / 8] x [513 / 8] = 32 x 64 and [257 / 64] x [513 / 64] = 4 x 8. *)
Lemma C4_odd_kernel_rounds_up :
  ~ (exists net,
        MultiScaleDiscriminator.__init__ 2 (PyInt 3) 2 8 3 1 3 "LEAKYRELU"
          "instance" false (1 # 10) 256 = Return net
        /\ MultiScaleDiscriminator.forward Shape.apply net [1; 3; 257; 513] false
           = Ok [[1; 1; 257 / 2 ^ 3; 513 / 2 ^ 3];
                 [1; 1; 257 / 2 ^ 6; 513 / 2 ^ 6]])
  /\ (exists net,
        MultiScaleDiscriminator.__init__ 2 (PyInt 3) 2 8 3 1 3 "LEAKYRELU"
          "instance" false (1 # 10) 256 = Return net
        /\ MultiScaleDiscriminator.forward Shape.apply net [1; 3; 257; 513] false
           = Ok [[1; 1; 33; 65]; [1; 1; 5; 9]]).
Proof.
  split.
  - intros (net & Hnet & Hfwd).
    vm_compute in Hnet. injection Hnet as <-.
    vm_compute in Hfwd. discriminate Hfwd.
  - eexists. split; vm_compute; reflexivity.
Qed.

(** C4, amended: there is no pooling option; every non-terminal layer of
    every scale is a convolution of stride 2, kernel size [kernel_size] and
    padding [int((kernel_size - 1) / 2)] on each axis.  For a layer count
    [n_layers_D >= 0], a kernel size of at least 1 and an input with
    [spatial_dims] spatial axes, the terminal output of scale [j] has the
    batch extent of the input, [out_channels] channels, and each spatial
    extent divided by [2 ^ (n_layers_D * (j + 1))]: rounded down when the
    kernel size is even, rounded up when it is odd - hence the exact quotient
    whenever the extents are multiples of that power of two. *)
Theorem C4_terminal_extents_divided_by_power_of_two
    (num_D n spatial_dims n_channels in_channels out_channels kernel_size : Z)
    (activation norm : string) (bias : bool) (dropout : Q)
    (minimum_size_im : Z) (net : MultiScaleDiscriminator.t)
    (batch ch : Z) (sp : list Z) :
  MultiScaleDiscriminator.__init__ num_D (PyInt n) spatial_dims n_channels
    in_channels out_channels kernel_size activation norm bias dropout
    minimum_size_im = Return net ->
  0 <= n -> 1 <= kernel_size -> length sp = Z.to_nat spatial_dims ->
  (forall j l, 0 <= j < num_D -> 0 <= l < n * (j + 1) ->
     exists D c,
       nth_error (MultiScaleDiscriminator.children net) (Z.to_nat j) = Some D
       /\ nth_error (NLayerDiscriminator.children D) (Z.to_nat l) = Some c
       /\ Convolution.strides c = 2
       /\ Convolution.kernel_size c = kernel_size
       /\ Convolution.padding c
          = Some (repeat (int_half (kernel_size - 1)) (Z.to_nat spatial_dims)))
  /\ MultiScaleDiscriminator.forward Shape.apply net (batch :: ch :: sp) false
     = Ok (map (fun j =>
                  batch :: out_channels
                    :: map (fun d =>
                              if Z.even kernel_size
                              then d / 2 ^ (n * (j + 1))
                              else (d + 2 ^ (n * (j + 1)) - 1) / 2 ^ (n * (j + 1)))
                           sp)
               (range num_D))
  /\ ((forall j d, 0 <= j < num_D -> In d sp -> (2 ^ (n * (j + 1)) | d)) ->
      MultiScaleDiscriminator.forward Shape.apply net (batch :: ch :: sp) false
      = Ok (map (fun j =>
                   batch :: out_channels
                     :: map (fun d => d / 2 ^ (n * (j + 1))) sp)
                (range num_D))).
Proof.
  intros H Hn Hks Hlen. apply MultiScale_init_Return in H as [_ ->].
  assert (Hfwd := terminal_shapes num_D n spatial_dims n_channels in_channels
                    out_channels kernel_size activation norm bias dropout
                    batch ch sp Hks Hn Hlen).
  split; [|split].
  - intros j l Hj Hl. do 2 eexists. split; [|split; [|split; [|split]]].
    + rewrite subnets_children, nth_error_map, range_nth by exact Hj.
      reflexivity.
    + rewrite subnet_children, nth_error_app1
        by (rewrite length_map, range_length; lia).
      rewrite nth_error_map, range_nth by exact Hl. reflexivity.
    + reflexivity.
    + reflexivity.
    + cbn [Arch.down_layer Convolution.padding].
      now rewrite list_repeat_singleton.
  - rewrite MultiScale_forward_plain, subnets_children. now f_equal.
  - intros Hdiv.
    rewrite MultiScale_forward_plain, subnets_children, Hfwd. f_equal.
    apply map_ext_in. intros j Hj. apply range_In in Hj.
    do 2 f_equal. apply map_ext_in. intros d Hd.
    destruct (Z.even kernel_size); [reflexivity|].
    apply div_up_exact; [|now apply Hdiv].
    apply Z.pow_pos_nonneg; [lia|]. apply Z.mul_nonneg_nonneg; lia.
Qed.

Lemma C4_odd_extents_through_two_scales :
  MultiScaleDiscriminator.forward Shape.apply
    (MultiScaleDiscriminator.mk 2 (PyInt 3) 8 [1; 1]
       (Arch.subnets 2 8 3 1 3 "LEAKYRELU" "instance" false [1; 1] (1 # 10) 3 2))
    [1; 3; 257; 513] false
  = Ok [[1; 1; (257 + 2 ^ 3 - 1) / 2 ^ 3; (513 + 2 ^ 3 - 1) / 2 ^ 3];
        [1; 1; (257 + 2 ^ 6 - 1) / 2 ^ 6; (513 + 2 ^ 6 - 1) / 2 ^ 6]].
Proof.
  apply (C4_terminal_extents_divided_by_power_of_two
           2 3 2 8 3 1 3 "LEAKYRELU" "instance" false (1 # 10) 256
           (MultiScaleDiscriminator.mk 2 (PyInt 3) 8 [1; 1]
              (Arch.subnets 2 8 3 1 3 "LEAKYRELU" "instance" false [1; 1]
                 (1 # 10) 3 2))
           1 3 [257; 513]).
  - vm_compute. reflexivity.
  - lia.
  - lia.
  - reflexivity.
Defined.

(** ** Layer counts *)

(** C5: with an integer layer count, every scale [i] of a constructed
    discriminator is the sub-discriminator built with [index_D = i]; its
    effective layer count [self.n_layers_D] is [n_layers_D * (i + 1)], and its
    stack holds that many stride-2 layers followed by the terminal one. *)
Theorem C5_uniform_layer_count_scales_with_index
    (num_D n spatial_dims n_channels in_channels out_channels kernel_size : Z)
    (activation norm : string) (bias : bool) (dropout : Q)
    (minimum_size_im : Z) (net : MultiScaleDiscriminator.t) (i : Z) :
  MultiScaleDiscriminator.__init__ num_D (PyInt n) spatial_dims n_channels
    in_channels out_channels kernel_size activation norm bias dropout
    minimum_size_im = Return net ->
  0 <= i < num_D ->
  exists D,
    nth_error (MultiScaleDiscriminator.children net) (Z.to_nat i) = Some D
    /\ NLayerDiscriminator.__init__ (PyInt n) spatial_dims n_channels
         in_channels out_channels kernel_size activation norm bias
         (MultiScaleDiscriminator.padding net) i dropout minimum_size_im
       = Return D
    /\ NLayerDiscriminator.n_layers_D D = PyInt (n * (i + 1))
    /\ length (NLayerDiscriminator.children D) = S (Z.to_nat (n * (i + 1)))
    /\ (forall l, 0 <= l < n * (i + 1) ->
          exists c, nth_error (NLayerDiscriminator.children D) (Z.to_nat l) = Some c
                    /\ Convolution.strides c = 2).
Proof.
  intros H Hi.
  apply MultiScale_init_Return in H as [Hpass ->].
  eexists. split; [|split; [|split; [|split]]].
  - rewrite subnets_children, nth_error_map, range_nth by exact Hi. reflexivity.
  - cbn [MultiScaleDiscriminator.padding].
    now rewrite NLayer_init_int, (Hpass i Hi).
  - reflexivity.
  - apply subnet_children_length.
  - intros l Hl. eexists. split.
    + rewrite subnet_children, nth_error_app1
        by (rewrite length_map, range_length; lia).
      rewrite nth_error_map, range_nth by exact Hl. reflexivity.
    + reflexivity.
Qed.

Lemma C5_two_scales_of_three_layers :
  exists D,
    nth_error
      (MultiScaleDiscriminator.children
         (MultiScaleDiscriminator.mk 2 (PyInt 3) 8 [1; 1]
            (Arch.subnets 2 8 3 1 3 "LEAKYRELU" "instance" false [1; 1]
               (1 # 10) 3 2)))
      (Z.to_nat 1) = Some D
    /\ NLayerDiscriminator.__init__ (PyInt 3) 2 8 3 1 3 "LEAKYRELU" "instance"
         false [1; 1] 1 (1 # 10) 256 = Return D
    /\ NLayerDiscriminator.n_layers_D D = PyInt (3 * (1 + 1))
    /\ length (NLayerDiscriminator.children D) = S (Z.to_nat (3 * (1 + 1)))
    /\ (forall l, 0 <= l < 3 * (1 + 1) ->
          exists c, nth_error (NLayerDiscriminator.children D) (Z.to_nat l) = Some c
                    /\ Convolution.strides c = 2).
Proof.
  apply (C5_uniform_layer_count_scales_with_index
           2 3 2 8 3 1 3 "LEAKYRELU" "instance" false (1 # 10) 256).
  - vm_compute. reflexivity.
  - lia.
Defined.

(** ** Forward pass of the multi-scale discriminator *)

(** C6: with the features requested, the forward pass of a constructed
    discriminator (layer count [n_layers_D >= 0]) also returns one list per
    scale; the list of scale [j] is what sub-discriminator [j] returns for the
    same input without its last element, the terminal output, and so has
    [n_layers_D * (j + 1)] elements. *)
Theorem C6_intermediate_features_exclude_the_terminal_output
    {Tensor : Type} (apply : Convolution.t -> Tensor -> Tensor)
    (num_D n spatial_dims n_channels in_channels out_channels kernel_size : Z)
    (activation norm : string) (bias : bool) (dropout : Q)
    (minimum_size_im : Z) (net : MultiScaleDiscriminator.t) (i : Tensor) :
  MultiScaleDiscriminator.__init__ num_D (PyInt n) spatial_dims n_channels
    in_channels out_channels kernel_size activation norm bias dropout
    minimum_size_im = Return net ->
  0 <= n ->
  exists out intermediate_features,
    MultiScaleDiscriminator.forward apply net i true
    = Ok (out, intermediate_features)
    /\ length intermediate_features = Z.to_nat num_D
    /\ forall j, 0 <= j < num_D ->
         exists D,
           nth_error (MultiScaleDiscriminator.children net) (Z.to_nat j) = Some D
           /\ nth_error intermediate_features (Z.to_nat j)
              = Some (removelast (NLayerDiscriminator.forward apply D i true))
           /\ Z.of_nat (length (removelast
                                  (NLayerDiscriminator.forward apply D i true)))
              = n * (j + 1).
Proof.
  intros H Hn. apply MultiScale_init_Return in H as [_ ->].
  do 2 eexists. split; [|split].
  - apply MultiScale_forward_features.
    rewrite subnets_children. apply subnets_nonempty.
  - now rewrite length_map, subnets_children, length_map, range_length.
  - intros j Hj. eexists. split; [|split].
    + rewrite subnets_children, nth_error_map, range_nth by exact Hj.
      reflexivity.
    + rewrite nth_error_map, subnets_children, nth_error_map, range_nth
        by exact Hj.
      reflexivity.
    + rewrite removelast_length, NLayer_forward_features,
        layer_outputs_length, subnet_children_length.
      simpl. rewrite Z2Nat.id; [reflexivity|]. apply Z.mul_nonneg_nonneg; lia.
Qed.

Lemma C6_features_of_two_scales :
  exists out intermediate_features,
    MultiScaleDiscriminator.forward Shape.apply
      (MultiScaleDiscriminator.mk 2 (PyInt 3) 8 [1; 1]
         (Arch.subnets 2 8 3 1 3 "LEAKYRELU" "instance" false [1; 1]
            (1 # 10) 3 2))
      [1; 3; 256; 512] true
    = Ok (out, intermediate_features)
    /\ map (@length _) intermediate_features = [3%nat; 6%nat].
Proof.
  destruct (C6_intermediate_features_exclude_the_terminal_output Shape.apply
              2 3 2 8 3 1 3 "LEAKYRELU" "instance" false (1 # 10) 256
              (MultiScaleDiscriminator.mk 2 (PyInt 3) 8 [1; 1]
                 (Arch.subnets 2 8 3 1 3 "LEAKYRELU" "instance" false [1; 1]
                    (1 # 10) 3 2))
              [1; 3; 256; 512] ltac:(vm_compute; reflexivity) ltac:(lia))
    as (out & feats & Hfwd & _).
  exists out, feats. split; [exact Hfwd|].
  vm_compute in Hfwd. injection Hfwd as _ <-. reflexivity.
Defined.

(** C7: the forward pass of a constructed discriminator gives the one input
    tensor [i] to every sub-discriminator and returns their terminal outputs,
    [num_D] of them, in index order: output [j] is what the sub-discriminator
    built with [index_D = j] - registered [j]-th, under the name
    [discriminator_j] - computes on [i] itself.  The list is the same whether
    or not the features are requested. *)
Theorem C7_one_terminal_output_per_scale_in_index_order
    {Tensor : Type} (apply : Convolution.t -> Tensor -> Tensor)
    (num_D n spatial_dims n_channels in_channels out_channels kernel_size : Z)
    (activation norm : string) (bias : bool) (dropout : Q)
    (minimum_size_im : Z) (net : MultiScaleDiscriminator.t) (i : Tensor) :
  MultiScaleDiscriminator.__init__ num_D (PyInt n) spatial_dims n_channels
    in_channels out_channels kernel_size activation norm bias dropout
    minimum_size_im = Return net ->
  exists out intermediate_features,
    MultiScaleDiscriminator.forward apply net i false = Ok out
    /\ MultiScaleDiscriminator.forward apply net i true
       = Ok (out, intermediate_features)
    /\ length out = Z.to_nat num_D
    /\ forall j, 0 <= j < num_D ->
         exists D,
           NLayerDiscriminator.__init__ (PyInt n) spatial_dims n_channels
             in_channels out_channels kernel_size activation norm bias
             (MultiScaleDiscriminator.padding net) j dropout minimum_size_im
           = Return D
           /\ nth_error (MultiScaleDiscriminator._modules net) (Z.to_nat j)
              = Some (("discriminator_" ++ fmt_d j)%string, D)
           /\ nth_error out (Z.to_nat j)
              = Some (NLayerDiscriminator.forward apply D i false).
Proof.
  intros H. apply MultiScale_init_Return in H as [Hpass ->].
  do 2 eexists. split; [|split; [|split]].
  - apply MultiScale_forward_plain.
  - apply MultiScale_forward_features.
    rewrite subnets_children. apply subnets_nonempty.
  - now rewrite length_map, subnets_children, length_map, range_length.
  - intros j Hj. eexists. split; [|split].
    + cbn [MultiScaleDiscriminator.padding].
      now rewrite NLayer_init_int, (Hpass j Hj).
    + cbn [MultiScaleDiscriminator._modules]. unfold Arch.subnets.
      rewrite nth_error_map, range_nth by exact Hj. reflexivity.
    + rewrite nth_error_map, subnets_children, nth_error_map, range_nth
        by exact Hj.
      reflexivity.
Qed.

Lemma C7_two_scales_on_one_image :
  exists out intermediate_features,
    MultiScaleDiscriminator.forward Shape.apply
      (MultiScaleDiscriminator.mk 2 (PyInt 3) 8 [1; 1]
         (Arch.subnets 2 8 3 1 3 "LEAKYRELU" "instance" false [1; 1]
            (1 # 10) 3 2))
      [1; 3; 256; 512] false = Ok out
    /\ MultiScaleDiscriminator.forward Shape.apply
         (MultiScaleDiscriminator.mk 2 (PyInt 3) 8 [1; 1]
            (Arch.subnets 2 8 3 1 3 "LEAKYRELU" "instance" false [1; 1]
               (1 # 10) 3 2))
         [1; 3; 256; 512] true = Ok (out, intermediate_features)
    /\ length out = Z.to_nat 2.
Proof.
  destruct (C7_one_terminal_output_per_scale_in_index_order Shape.apply
              2 3 2 8 3 1 3 "LEAKYRELU" "instance" false (1 # 10) 256
              (MultiScaleDiscriminator.mk 2 (PyInt 3) 8 [1; 1]
                 (Arch.subnets 2 8 3 1 3 "LEAKYRELU" "instance" false [1; 1]
                    (1 # 10) 3 2))
              [1; 3; 256; 512] ltac:(vm_compute; reflexivity))
    as (out & feats & Hplain & Hfeat & Hlen & _).
  exists out, feats. repeat split; assumption.
Defined.

(** ** Channels *)

(** C8: in a constructed sub-discriminator with [k = n_layers_D * (index_D + 1)]
    stride-2 layers, layer 0 maps [in_channels] to [2 * n_channels]; layer [l]
    outputs [n_channels * 2 ^ (l + 1)] channels and, from layer 1 on, takes
    the [n_channels * 2 ^ l] channels its predecessor outputs; the terminal
    layer is the last child, has kernel size 1 and stride 1, takes the
    channels of the last stride-2 layer and outputs [out_channels]. *)
Theorem C8_channel_progression
    (n spatial_dims n_channels in_channels out_channels kernel_size : Z)
    (activation norm : string) (bias : bool) (padding : list Z)
    (index_D : Z) (dropout : Q) (minimum_size_im : Z)
    (D : NLayerDiscriminator.t) :
  NLayerDiscriminator.__init__ (PyInt n) spatial_dims n_channels in_channels
    out_channels kernel_size activation norm bias padding index_D dropout
    minimum_size_im = Return D ->
  (forall l, 0 <= l < n * (index_D + 1) ->
     exists c,
       nth_error (NLayerDiscriminator.children D) (Z.to_nat l) = Some c
       /\ Convolution.in_channels c
          = (if l =? 0 then in_channels else n_channels * 2 ^ l)
       /\ Convolution.out_channels c = n_channels * 2 ^ (l + 1)
       /\ Convolution.kernel_size c = kernel_size
       /\ Convolution.strides c = 2)
  /\ (exists c,
        nth_error (NLayerDiscriminator.children D)
          (Z.to_nat (n * (index_D + 1))) = Some c
        /\ length (NLayerDiscriminator.children D)
           = S (Z.to_nat (n * (index_D + 1)))
        /\ Convolution.in_channels c
           = (if n * (index_D + 1) <=? 0 then in_channels
              else n_channels * 2 ^ (n * (index_D + 1) - 1 + 1))
        /\ Convolution.out_channels c = out_channels
        /\ Convolution.kernel_size c = 1
        /\ Convolution.strides c = 1).
Proof.
  intros H. apply NLayer_init_Return in H as [_ ->]. split.
  - intros l Hl. eexists. split; [|split; [|split; [|split]]].
    + rewrite subnet_children, nth_error_app1
        by (rewrite length_map, range_length; lia).
      rewrite nth_error_map, range_nth by exact Hl. reflexivity.
    + cbn [Arch.down_layer Convolution.in_channels]. unfold Arch.channels_into.
      destruct (Z.leb_spec l 0), (Z.eqb_spec l 0); try lia; reflexivity.
    + reflexivity.
    + reflexivity.
    + reflexivity.
  - eexists. split; [|split; [|split; [|split; [|split]]]].
    + rewrite subnet_children, nth_error_app2
        by (rewrite length_map, range_length; lia).
      rewrite length_map, range_length, Nat.sub_diag. reflexivity.
    + apply subnet_children_length.
    + cbn [Arch.final_conv Convolution.in_channels]. unfold Arch.channels_into.
      destruct (Z.leb_spec (n * (index_D + 1)) 0); [reflexivity|].
      do 2 f_equal. lia.
    + reflexivity.
    + reflexivity.
    + reflexivity.
Qed.

Lemma C8_channels_of_the_second_scale :
  (forall l, 0 <= l < 3 * (1 + 1) ->
     exists c,
       nth_error
         (NLayerDiscriminator.children
            (Arch.subnet 2 8 3 1 3 "LEAKYRELU" "instance" false [1; 1] (1 # 10) 3 1))
         (Z.to_nat l) = Some c
       /\ Convolution.in_channels c = (if l =? 0 then 3 else 8 * 2 ^ l)
       /\ Convolution.out_channels c = 8 * 2 ^ (l + 1)
       /\ Convolution.kernel_size c = 3
       /\ Convolution.strides c = 2)
  /\ (exists c,
        nth_error
          (NLayerDiscriminator.children
             (Arch.subnet 2 8 3 1 3 "LEAKYRELU" "instance" false [1; 1] (1 # 10) 3 1))
          (Z.to_nat (3 * (1 + 1))) = Some c
        /\ length
             (NLayerDiscriminator.children
                (Arch.subnet 2 8 3 1 3 "LEAKYRELU" "instance" false [1; 1]
                   (1 # 10) 3 1))
           = S (Z.to_nat (3 * (1 + 1)))
        /\ Convolution.in_channels c
           = (if 3 * (1 + 1) <=? 0 then 3 else 8 * 2 ^ (3 * (1 + 1) - 1 + 1))
        /\ Convolution.out_channels c = 1
        /\ Convolution.kernel_size c = 1
        /\ Convolution.strides c = 1).
Proof.
  apply (C8_channel_progression 3 2 8 3 1 3 "LEAKYRELU" "instance" false [1; 1]
           1 (1 # 10) 256).
  vm_compute. reflexivity.
Defined.

(** ** Forward pass of a sub-discriminator *)

(** C9: for a constructed sub-discriminator, the forward pass with the
    features requested returns the outputs of the layers in order, one per
    layer, the terminal output last, [k + 1] of them for [k] stride-2 layers;
    the forward pass without the features returns the last element of that
    list. *)
Theorem C9_forward_modes_agree
    {Tensor : Type} (apply : Convolution.t -> Tensor -> Tensor)
    (n spatial_dims n_channels in_channels out_channels kernel_size : Z)
    (activation norm : string) (bias : bool) (padding : list Z)
    (index_D : Z) (dropout : Q) (minimum_size_im : Z)
    (D : NLayerDiscriminator.t) (x : Tensor) :
  NLayerDiscriminator.__init__ (PyInt n) spatial_dims n_channels in_channels
    out_channels kernel_size activation norm bias padding index_D dropout
    minimum_size_im = Return D ->
  NLayerDiscriminator.forward apply D x true
  = Arch.layer_outputs apply (NLayerDiscriminator.children D) x
  /\ length (NLayerDiscriminator.forward apply D x true)
     = S (Z.to_nat (n * (index_D + 1)))
  /\ py_last (NLayerDiscriminator.forward apply D x true)
     = Ok (NLayerDiscriminator.forward apply D x false).
Proof.
  intros H. apply NLayer_init_Return in H as [_ ->].
  rewrite NLayer_forward_features, NLayer_forward_terminal.
  split; [reflexivity|]. split.
  - rewrite layer_outputs_length. apply subnet_children_length.
  - apply py_last_ok. intros E. apply (f_equal (@length _)) in E.
    rewrite layer_outputs_length, subnet_children_length in E. discriminate E.
Qed.

Lemma C9_shapes_through_the_first_scale :
  NLayerDiscriminator.forward Shape.apply
    (Arch.subnet 2 8 3 1 3 "LEAKYRELU" "instance" false [1; 1] (1 # 10) 3 0)
    [1; 3; 256; 512] true
  = Arch.layer_outputs Shape.apply
      (NLayerDiscriminator.children
         (Arch.subnet 2 8 3 1 3 "LEAKYRELU" "instance" false [1; 1] (1 # 10) 3 0))
      [1; 3; 256; 512]
  /\ length
       (NLayerDiscriminator.forward Shape.apply
          (Arch.subnet 2 8 3 1 3 "LEAKYRELU" "instance" false [1; 1] (1 # 10) 3 0)
          [1; 3; 256; 512] true)
     = S (Z.to_nat (3 * (0 + 1)))
  /\ py_last
       (NLayerDiscriminator.forward Shape.apply
          (Arch.subnet 2 8 3 1 3 "LEAKYRELU" "instance" false [1; 1] (1 # 10) 3 0)
          [1; 3; 256; 512] true)
     = Ok (NLayerDiscriminator.forward Shape.apply
             (Arch.subnet 2 8 3 1 3 "LEAKYRELU" "instance" false [1; 1]
                (1 # 10) 3 0)
             [1; 3; 256; 512] false).
Proof.
  apply (C9_forward_modes_agree Shape.apply 3 2 8 3 1 3 "LEAKYRELU" "instance"
           false [1; 1] 0 (1 # 10) 256).
  vm_compute. reflexivity.
Defined.

(** ** The minimum size and the forward pass *)

(** C10: the forward pass does not depend on [minimum_size_im].  Two
    constructions that differ in nothing but that bound, once both return,
    compute the same result on every input, whatever its extents, and that
    result is a value: the forward pass raises nothing of its own. *)
Theorem C10_forward_never_consults_minimum_size
    {Tensor : Type} (apply : Convolution.t -> Tensor -> Tensor)
    (num_D : Z) (n_layers_D : pyval) (spatial_dims n_channels in_channels
     out_channels kernel_size : Z) (activation norm : string) (bias : bool)
    (dropout : Q) (minimum_size_im minimum_size_im' : Z)
    (net net' : MultiScaleDiscriminator.t) (i : Tensor)
    (get_intermediate_features : bool) :
  MultiScaleDiscriminator.__init__ num_D n_layers_D spatial_dims n_channels
    in_channels out_channels kernel_size activation norm bias dropout
    minimum_size_im = Return net ->
  MultiScaleDiscriminator.__init__ num_D n_layers_D spatial_dims n_channels
    in_channels out_channels kernel_size activation norm bias dropout
    minimum_size_im' = Return net' ->
  MultiScaleDiscriminator.forward apply net i get_intermediate_features
  = MultiScaleDiscriminator.forward apply net' i get_intermediate_features
  /\ exists r,
       MultiScaleDiscriminator.forward apply net i get_intermediate_features
       = Ok r.
Proof.
  intros H H'. destruct n_layers_D as [n|l].
  - apply MultiScale_init_Return in H as [_ ->].
    apply MultiScale_init_Return in H' as [_ ->].
    split; [reflexivity|].
    destruct get_intermediate_features.
    + eexists. apply MultiScale_forward_features.
      rewrite subnets_children. apply subnets_nonempty.
    + eexists. apply MultiScale_forward_plain.
  - rewrite MultiScale_init_list in H, H'.
    destruct (1 <=? num_D); [discriminate H|].
    injection H as <-. injection H' as <-.
    split; [reflexivity|].
    destruct get_intermediate_features; eexists; reflexivity.
Qed.

Lemma C10_input_below_the_minimum_size :
  MultiScaleDiscriminator.forward Shape.apply
    (MultiScaleDiscriminator.mk 2 (PyInt 3) 8 [1; 1]
       (Arch.subnets 2 8 3 1 3 "LEAKYRELU" "instance" false [1; 1] (1 # 10) 3 2))
    [1; 3; 64; 64] false
  = Ok [[1; 1; 8; 8]; [1; 1; 1; 1]].
Proof.
  destruct (C10_forward_never_consults_minimum_size Shape.apply
              2 (PyInt 3) 2 8 3 1 3 "LEAKYRELU" "instance" false (1 # 10)
              256 64
              (MultiScaleDiscriminator.mk 2 (PyInt 3) 8 [1; 1]
                 (Arch.subnets 2 8 3 1 3 "LEAKYRELU" "instance" false [1; 1]
                    (1 # 10) 3 2))
              (MultiScaleDiscriminator.mk 2 (PyInt 3) 8 [1; 1]
                 (Arch.subnets 2 8 3 1 3 "LEAKYRELU" "instance" false [1; 1]
                    (1 # 10) 3 2))
              [1; 3; 64; 64] false
              ltac:(vm_compute; reflexivity) ltac:(vm_compute; reflexivity))
    as [_ [r Hr]].
  rewrite Hr. vm_compute in Hr. injection Hr as <-. reflexivity.
Defined.

(** * Further properties of the constructors and of the forward passes *)

(** ** The size check in integer terms *)

Lemma size_check_fails_iff (m k : Z) :
  0 <= k -> (Qltb (output_size m k) 1 = true <-> m < 2 ^ k).
Proof. intros Hk. rewrite Qltb_lt. now apply output_size_lt_1. Qed.

Lemma size_check_passes_iff (m k : Z) :
  0 <= k -> (Qltb (output_size m k) 1 = false <-> 2 ^ k <= m).
Proof.
  intros Hk. pose proof (size_check_fails_iff m k Hk) as H.
  destruct (Qltb (output_size m k) 1); split; intros E; try discriminate.
  - assert (m < 2 ^ k) by now apply H. lia.
  - destruct (Z.lt_ge_cases m (2 ^ k)) as [L|L]; [|lia].
    apply H in L. discriminate L.
  - reflexivity.
Qed.

Lemma size_check_fails_nonpositive (m k : Z) :
  m <= 0 -> Qltb (output_size m k) 1 = true.
Proof.
  intros Hm. apply Qltb_lt. unfold output_size.
  assert (Hpos : (0 < (2 # 1) ^ k)%Q) by (apply Qpower_0_lt; reflexivity).
  apply Qlt_shift_div_r; [exact Hpos|]. rewrite Qmult_1_l.
  apply Qle_lt_trans with (y := 0%Q); [|exact Hpos].
  change 0%Q with (inject_Z 0). now rewrite <- Zle_Qle.
Qed.

(** X1: with a layer count [n_layers_D >= 0], at least one scale, and
    arguments on which the float quotient of the deepest scale is exact
    ([binary64_exact], hence of every scale), construction returns exactly
    when the deepest scale fits:
    [2 ^ (n_layers_D * num_D) <= minimum_size_im]. *)
Theorem X1_construction_returns_iff_deepest_scale_fits
    (num_D n spatial_dims n_channels in_channels out_channels kernel_size : Z)
    (activation norm : string) (bias : bool) (dropout : Q)
    (minimum_size_im : Z) :
  0 <= n -> 1 <= num_D ->
  binary64_exact minimum_size_im (n * num_D) ->
  ((exists net,
       MultiScaleDiscriminator.__init__ num_D (PyInt n) spatial_dims n_channels
         in_channels out_channels kernel_size activation norm bias dropout
         minimum_size_im = Return net)
   <-> 2 ^ (n * num_D) <= minimum_size_im).
Proof.
  intros Hn HD _. split.
  - intros [net H]. apply MultiScale_init_Return in H as [Hpass _].
    specialize (Hpass (num_D - 1) ltac:(lia)).
    replace (num_D - 1 + 1) with num_D in Hpass by lia.
    apply size_check_passes_iff in Hpass; [exact Hpass|].
    apply Z.mul_nonneg_nonneg; lia.
  - intros H. eexists. apply MultiScale_init_built. intros i Hi.
    apply size_check_passes_iff; [apply Z.mul_nonneg_nonneg; lia|].
    apply Z.le_trans with (m := 2 ^ (n * num_D)); [|exact H].
    apply Z.pow_le_mono_r; [lia|]. apply Z.mul_le_mono_nonneg_l; lia.
Qed.

Lemma X1_three_layers_two_scales_need_64 :
  (exists net,
      MultiScaleDiscriminator.__init__ 2 (PyInt 3) 2 8 3 1 3 "LEAKYRELU"
        "instance" false (1 # 10) 64 = Return net)
  /\ ~ (exists net,
          MultiScaleDiscriminator.__init__ 2 (PyInt 3) 2 8 3 1 3 "LEAKYRELU"
            "instance" false (1 # 10) 63 = Return net).
Proof.
  split.
  - apply (X1_construction_returns_iff_deepest_scale_fits
             2 3 2 8 3 1 3 "LEAKYRELU" "instance" false (1 # 10) 64);
      [lia|lia|unfold binary64_exact; lia|]. vm_compute. discriminate.
  - intros H.
    apply (X1_construction_returns_iff_deepest_scale_fits
             2 3 2 8 3 1 3 "LEAKYRELU" "instance" false (1 # 10) 63) in H;
      [|lia|lia|unfold binary64_exact; lia].
    vm_compute in H. now apply H.
Defined.

(** X2: with a layer count [n_layers_D >= 1] and a minimum size [m >= 1] too
    small for the deepest scale, the assertion error names the scale
    [log2 m / n_layers_D] (both roundings down) - the first one the bound
    does not fit - and that many sub-discriminators had been registered when
    it was raised.  The float quotient is required to be exact at that scale
    ([binary64_exact]), hence at the scales before it. *)
Theorem X2_error_names_the_first_scale_that_does_not_fit
    (num_D n spatial_dims n_channels in_channels out_channels kernel_size : Z)
    (activation norm : string) (bias : bool) (dropout : Q)
    (minimum_size_im : Z) :
  1 <= n -> 1 <= minimum_size_im -> minimum_size_im < 2 ^ (n * num_D) ->
  binary64_exact minimum_size_im (n * (Z.log2 minimum_size_im / n + 1)) ->
  exists partial,
    MultiScaleDiscriminator.__init__ num_D (PyInt n) spatial_dims n_channels
      in_channels out_channels kernel_size activation norm bias dropout
      minimum_size_im
    = Raised
        (AssertionError
           (NLayerDiscriminator.too_small_format
              (fmt_d (Z.log2 minimum_size_im / n))
              (fmt_d (n * (Z.log2 minimum_size_im / n + 1)))))
        partial
    /\ Z.of_nat (length (MultiScaleDiscriminator.children partial))
       = Z.log2 minimum_size_im / n
    /\ 0 <= Z.log2 minimum_size_im / n < num_D.
Proof.
  intros Hn Hm Hsmall _.
  set (i := Z.log2 minimum_size_im / n).
  assert (Hlog : 0 <= Z.log2 minimum_size_im) by apply Z.log2_nonneg.
  assert (Hi0 : 0 <= i) by (apply Z.div_pos; lia).
  assert (Hlo : n * i <= Z.log2 minimum_size_im)
    by (apply Z.mul_div_le; lia).
  assert (Hhi : Z.log2 minimum_size_im < n * (i + 1))
    by (apply (Z.mul_succ_div_gt (Z.log2 minimum_size_im) n); lia).
  assert (HD : 0 <= num_D).
  { destruct (Z.lt_ge_cases num_D 0) as [L|L]; [|exact L].
    rewrite Z.pow_neg_r in Hsmall by nia. lia. }
  assert (HiD : i < num_D).
  { apply Z.log2_lt_pow2 in Hsmall; [|lia].
    apply Z.div_lt_upper_bound; lia. }
  eexists. split; [|split].
  - apply MultiScale_init_too_small with (i := i); [lia| |].
    + intros j Hj. apply size_check_passes_iff; [nia|].
      apply Z.log2_le_pow2; [lia|]. nia.
    + apply size_check_fails_iff; [nia|].
      apply Z.log2_lt_pow2; [lia|exact Hhi].
  - rewrite subnets_children, length_map, range_length. lia.
  - lia.
Qed.

Lemma X2_six_layers_on_256 :
  exists partial,
    MultiScaleDiscriminator.__init__ 2 (PyInt 6) 2 8 3 1 3 "LEAKYRELU"
      "instance" false (1 # 10) 256
    = Raised
        (AssertionError
           (NLayerDiscriminator.too_small_format (fmt_d (Z.log2 256 / 6))
              (fmt_d (6 * (Z.log2 256 / 6 + 1)))))
        partial
    /\ Z.of_nat (length (MultiScaleDiscriminator.children partial))
       = Z.log2 256 / 6
    /\ 0 <= Z.log2 256 / 6 < 2.
Proof.
  apply (X2_error_names_the_first_scale_that_does_not_fit
           2 6 2 8 3 1 3 "LEAKYRELU" "instance" false (1 # 10) 256).
  - lia.
  - lia.
  - vm_compute. reflexivity.
  - vm_compute. repeat split; discriminate.
Defined.

(** X3: a minimum size of zero or less fits no scale, not even one without
    stride-2 layers: for a layer count from 0 to 1023, a minimum size down to
    [- 2 ^ 53] ([binary64_exact]) and at least one scale, construction raises
    the assertion error of scale 0 with nothing registered. *)
Theorem X3_nonpositive_minimum_size_fails_at_scale_0
    (num_D n spatial_dims n_channels in_channels out_channels kernel_size : Z)
    (activation norm : string) (bias : bool) (dropout : Q)
    (minimum_size_im : Z) :
  binary64_exact minimum_size_im n -> minimum_size_im <= 0 -> 1 <= num_D ->
  MultiScaleDiscriminator.__init__ num_D (PyInt n) spatial_dims n_channels
    in_channels out_channels kernel_size activation norm bias dropout
    minimum_size_im
  = Raised
      (AssertionError
         (NLayerDiscriminator.too_small_format (fmt_d 0) (fmt_d (n * (0 + 1)))))
      (MultiScaleDiscriminator.mk num_D (PyInt n) n_channels
         (list_repeat [int_half (kernel_size - 1)] spatial_dims) []).
Proof.
  intros _ Hm HD.
  rewrite MultiScale_init_too_small with (i := 0).
  - reflexivity.
  - lia.
  - intros j Hj. lia.
  - now apply size_check_fails_nonpositive.
Qed.

Lemma X3_zero_minimum_size_and_no_layer :
  MultiScaleDiscriminator.__init__ 1 (PyInt 0) 2 8 3 1 3 "LEAKYRELU" "instance"
    false (1 # 10) 0
  = Raised
      (AssertionError
         (NLayerDiscriminator.too_small_format (fmt_d 0) (fmt_d (0 * (0 + 1)))))
      (MultiScaleDiscriminator.mk 1 (PyInt 0) 8
         (list_repeat [int_half (3 - 1)] 2) []).
Proof.
  apply (X3_nonpositive_minimum_size_fails_at_scale_0
           1 0 2 8 3 1 3 "LEAKYRELU" "instance" false (1 # 10) 0);
    [unfold binary64_exact|..]; lia.
Defined.

(** ** Degenerate layer and scale counts *)

Lemma size_check_passes_without_layers (m k : Z) :
  k <= 0 -> 1 <= m -> Qltb (output_size m k) 1 = false.
Proof.
  intros Hk Hm. apply Qltb_ge. unfold output_size.
  assert (Hpos : (0 < (2 # 1) ^ k)%Q) by (apply Qpower_0_lt; reflexivity).
  apply Qle_shift_div_l; [exact Hpos|]. rewrite Qmult_1_l.
  apply Qle_trans with (y := 1%Q).
  - replace k with (- - k) by lia. rewrite Qpower_opp.
    apply Qle_shift_inv_r.
    + apply Qpower_0_lt. reflexivity.
    + rewrite Qmult_1_l. apply Qpower_1_le; [discriminate|lia].
  - change 1%Q with (inject_Z 1). now rewrite <- Zle_Qle.
Qed.

(** X4: with a layer count of zero the loop over the stride-2 layers does not
    run.  For a minimum size of at least 1 the size check passes, and the
    sub-discriminator is the terminal 1x1 convolution alone, taking
    [in_channels] directly; its forward pass applies that one layer. *)
Theorem X4_no_stride_2_layer_leaves_the_terminal_convolution
    {Tensor : Type} (apply : Convolution.t -> Tensor -> Tensor)
    (n spatial_dims n_channels in_channels out_channels kernel_size : Z)
    (activation norm : string) (bias : bool) (padding : list Z)
    (index_D : Z) (dropout : Q) (minimum_size_im : Z) (x : Tensor) :
  n * (index_D + 1) = 0 -> 1 <= minimum_size_im ->
  exists D,
    NLayerDiscriminator.__init__ (PyInt n) spatial_dims n_channels in_channels
      out_channels kernel_size activation norm bias padding index_D dropout
      minimum_size_im = Return D
    /\ NLayerDiscriminator._modules D
       = [("final_conv",
           Convolution.mk spatial_dims 1 in_channels out_channels activation
             bias norm dropout None 1)]
    /\ NLayerDiscriminator.forward apply D x true
       = [apply (Convolution.mk spatial_dims 1 in_channels out_channels
                   activation bias norm dropout None 1) x]
    /\ NLayerDiscriminator.forward apply D x false
       = apply (Convolution.mk spatial_dims 1 in_channels out_channels
                  activation bias norm dropout None 1) x.
Proof.
  intros Hk Hm. eexists. split.
  - rewrite NLayer_init_int, size_check_passes_without_layers by lia.
    reflexivity.
  - assert (E : NLayerDiscriminator._modules
                  (Arch.subnet spatial_dims n_channels in_channels out_channels
                     kernel_size activation norm bias padding dropout n index_D)
                = [("final_conv",
                    Convolution.mk spatial_dims 1 in_channels out_channels
                      activation bias norm dropout None 1)]).
    { unfold Arch.subnet, Arch.stack, Arch.down_layers, range, Arch.final_conv,
        Arch.channels_into.
      cbn [NLayerDiscriminator._modules].
      replace (Z.to_nat (n * (index_D + 1))) with 0%nat by lia.
      destruct (Z.leb_spec (n * (index_D + 1)) 0); [reflexivity|lia]. }
    split; [exact E|].
    rewrite NLayer_forward_features, NLayer_forward_terminal.
    unfold NLayerDiscriminator.children. rewrite E. split; reflexivity.
Qed.

Lemma X4_zero_layers_on_shapes :
  exists D,
    NLayerDiscriminator.__init__ (PyInt 0) 2 8 3 1 3 "LEAKYRELU" "instance"
      false [1; 1] 4 (1 # 10) 256 = Return D
    /\ NLayerDiscriminator._modules D
       = [("final_conv",
           Convolution.mk 2 1 3 1 "LEAKYRELU" false "instance" (1 # 10) None 1)]
    /\ NLayerDiscriminator.forward Shape.apply D [1; 3; 256; 512] true
       = [Shape.apply
            (Convolution.mk 2 1 3 1 "LEAKYRELU" false "instance" (1 # 10) None 1)
            [1; 3; 256; 512]]
    /\ NLayerDiscriminator.forward Shape.apply D [1; 3; 256; 512] false
       = Shape.apply
           (Convolution.mk 2 1 3 1 "LEAKYRELU" false "instance" (1 # 10) None 1)
           [1; 3; 256; 512].
Proof.
  apply (X4_no_stride_2_layer_leaves_the_terminal_convolution Shape.apply
           0 2 8 3 1 3 "LEAKYRELU" "instance" false [1; 1] 4 (1 # 10) 256);
    lia.
Defined.

(** X5: with [num_D <= 0] the loop over the scales does not run: the
    constructor returns a discriminator without sub-discriminators whatever
    the other arguments are - a list as layer count or a minimum size no
    scale could fit included - and its forward pass returns empty lists. *)
Theorem X5_no_scale_gives_an_empty_discriminator
    {Tensor : Type} (apply : Convolution.t -> Tensor -> Tensor)
    (num_D : Z) (n_layers_D : pyval) (spatial_dims n_channels in_channels
     out_channels kernel_size : Z) (activation norm : string) (bias : bool)
    (dropout : Q) (minimum_size_im : Z) (i : Tensor) :
  num_D <= 0 ->
  exists net,
    MultiScaleDiscriminator.__init__ num_D n_layers_D spatial_dims n_channels
      in_channels out_channels kernel_size activation norm bias dropout
      minimum_size_im = Return net
    /\ MultiScaleDiscriminator._modules net = []
    /\ MultiScaleDiscriminator.forward apply net i false = Ok []
    /\ MultiScaleDiscriminator.forward apply net i true = Ok ([], []).
Proof.
  intros HD.
  exists (MultiScaleDiscriminator.mk num_D n_layers_D n_channels
            (list_repeat [int_half (kernel_size - 1)] spatial_dims) []).
  split; [|repeat split].
  unfold MultiScaleDiscriminator.__init__, construct.
  unfold bind at 1. unfold get at 1.
  cbn [MultiScaleDiscriminator.num_D]. unfold range.
  replace (Z.to_nat num_D) with 0%nat by lia. reflexivity.
Qed.

Lemma X5_zero_scales_and_a_list :
  exists net,
    MultiScaleDiscriminator.__init__ 0 (PyList [3; 4; 5]) 2 8 3 1 3 "LEAKYRELU"
      "instance" false (1 # 10) 0 = Return net
    /\ MultiScaleDiscriminator._modules net = []
    /\ MultiScaleDiscriminator.forward Shape.apply net [1; 3; 256; 512] false
       = Ok []
    /\ MultiScaleDiscriminator.forward Shape.apply net [1; 3; 256; 512] true
       = Ok ([], []).
Proof.
  apply (X5_no_scale_gives_an_empty_discriminator Shape.apply 0
           (PyList [3; 4; 5]) 2 8 3 1 3 "LEAKYRELU" "instance" false (1 # 10) 0).
  lia.
Defined.

(** ** Names and hyperparameters of the registered modules *)

Lemma NoDup_map_injective {A B : Type} (f : A -> B) (l : list A) :
  (forall x y, f x = f y -> x = y) -> NoDup l -> NoDup (map f l).
Proof.
  intros Hinj H. induction H as [|a l Ha _ IH]; simpl; constructor.
  - rewrite in_map_iff. intros (b & E & Hb). apply Hinj in E. now subst.
  - exact IH.
Qed.

Lemma range_NoDup (n : Z) : NoDup (range n).
Proof.
  unfold range. apply NoDup_map_injective; [apply Nat2Z.inj|apply seq_NoDup].
Qed.

(** X6: a constructed sub-discriminator registers its stride-2 layers under
    the names "0", "1", ... in order and the terminal layer last under the
    name "final_conv"; no name is used twice, so no registration replaces an
    earlier one. *)
Theorem X6_layer_names_of_a_sub_discriminator
    (n spatial_dims n_channels in_channels out_channels kernel_size : Z)
    (activation norm : string) (bias : bool) (padding : list Z)
    (index_D : Z) (dropout : Q) (minimum_size_im : Z)
    (D : NLayerDiscriminator.t) :
  NLayerDiscriminator.__init__ (PyInt n) spatial_dims n_channels in_channels
    out_channels kernel_size activation norm bias padding index_D dropout
    minimum_size_im = Return D ->
  dict_keys (NLayerDiscriminator._modules D)
  = map fmt_d (range (n * (index_D + 1))) ++ ["final_conv"]
  /\ NoDup (dict_keys (NLayerDiscriminator._modules D)).
Proof.
  intros H. apply NLayer_init_Return in H as [_ ->].
  assert (E : dict_keys
                (NLayerDiscriminator._modules
                   (Arch.subnet spatial_dims n_channels in_channels
                      out_channels kernel_size activation norm bias padding
                      dropout n index_D))
              = map fmt_d (range (n * (index_D + 1))) ++ ["final_conv"]).
  { unfold dict_keys, Arch.subnet, Arch.stack, Arch.down_layers.
    cbn [NLayerDiscriminator._modules]. rewrite map_app, map_map. reflexivity. }
  split; [exact E|]. rewrite E. apply NoDup_app.
  - apply NoDup_map_injective; [apply fmt_d_inj|apply range_NoDup].
  - constructor; [intros []|constructor].
  - intros a Ha [Hf|[]]. apply in_map_iff in Ha as (l & <- & _).
    symmetry in Hf. exact (fmt_d_not_final_conv _ Hf).
Qed.

Lemma X6_names_of_the_first_scale :
  dict_keys
    (NLayerDiscriminator._modules
       (Arch.subnet 2 8 3 1 3 "LEAKYRELU" "instance" false [1; 1] (1 # 10) 3 0))
  = map fmt_d (range (3 * (0 + 1))) ++ ["final_conv"]
  /\ NoDup
       (dict_keys
          (NLayerDiscriminator._modules
             (Arch.subnet 2 8 3 1 3 "LEAKYRELU" "instance" false [1; 1]
                (1 # 10) 3 0))).
Proof.
  apply (X6_layer_names_of_a_sub_discriminator 3 2 8 3 1 3 "LEAKYRELU"
           "instance" false [1; 1] 0 (1 # 10) 256).
  vm_compute. reflexivity.
Defined.

(** X7: a constructed multi-scale discriminator registers its
    sub-discriminators under the names "discriminator_0", "discriminator_1",
    ... in index order, and no name is used twice. *)
Theorem X7_names_of_the_scales
    (num_D n spatial_dims n_channels in_channels out_channels kernel_size : Z)
    (activation norm : string) (bias : bool) (dropout : Q)
    (minimum_size_im : Z) (net : MultiScaleDiscriminator.t) :
  MultiScaleDiscriminator.__init__ num_D (PyInt n) spatial_dims n_channels
    in_channels out_channels kernel_size activation norm bias dropout
    minimum_size_im = Return net ->
  dict_keys (MultiScaleDiscriminator._modules net)
  = map (fun i => ("discriminator_" ++ fmt_d i)%string) (range num_D)
  /\ NoDup (dict_keys (MultiScaleDiscriminator._modules net)).
Proof.
  intros H. apply MultiScale_init_Return in H as [_ ->].
  assert (E : dict_keys
                (Arch.subnets spatial_dims n_channels in_channels out_channels
                   kernel_size activation norm bias
                   (list_repeat [int_half (kernel_size - 1)] spatial_dims)
                   dropout n num_D)
              = map (fun i => ("discriminator_" ++ fmt_d i)%string)
                    (range num_D)).
  { unfold dict_keys, Arch.subnets. now rewrite map_map. }
  cbn [MultiScaleDiscriminator._modules]. split; [exact E|]. rewrite E.
  apply NoDup_map_injective; [|apply range_NoDup].
  intros x y Hxy. simpl in Hxy. injection Hxy as Hxy. now apply fmt_d_inj.
Qed.

Lemma X7_names_of_two_scales :
  dict_keys
    (MultiScaleDiscriminator._modules
       (MultiScaleDiscriminator.mk 2 (PyInt 3) 8 [1; 1]
          (Arch.subnets 2 8 3 1 3 "LEAKYRELU" "instance" false [1; 1]
             (1 # 10) 3 2)))
  = ["discriminator_0"; "discriminator_1"]
  /\ NoDup
       (dict_keys
          (MultiScaleDiscriminator._modules
             (MultiScaleDiscriminator.mk 2 (PyInt 3) 8 [1; 1]
                (Arch.subnets 2 8 3 1 3 "LEAKYRELU" "instance" false [1; 1]
                   (1 # 10) 3 2)))).
Proof.
  apply (X7_names_of_the_scales 2 3 2 8 3 1 3 "LEAKYRELU" "instance" false
           (1 # 10) 256).
  vm_compute. reflexivity.
Defined.

(** X8: every convolution block of every scale of a constructed
    discriminator, the terminal one included, carries the configured
    [spatial_dims], activation, normalisation, bias flag and dropout.  It is
    either a stride-2 layer with the configured kernel size and the padding
    stored on the discriminator, or the terminal layer: kernel size 1,
    stride 1, no explicit padding, [out_channels] outputs. *)
Theorem X8_every_layer_carries_the_configuration
    (num_D n spatial_dims n_channels in_channels out_channels kernel_size : Z)
    (activation norm : string) (bias : bool) (dropout : Q)
    (minimum_size_im : Z) (net : MultiScaleDiscriminator.t)
    (D : NLayerDiscriminator.t) (c : Convolution.t) :
  MultiScaleDiscriminator.__init__ num_D (PyInt n) spatial_dims n_channels
    in_channels out_channels kernel_size activation norm bias dropout
    minimum_size_im = Return net ->
  In D (MultiScaleDiscriminator.children net) ->
  In c (NLayerDiscriminator.children D) ->
  Convolution.spatial_dims c = spatial_dims
  /\ Convolution.act c = activation
  /\ Convolution.norm c = norm
  /\ Convolution.bias c = bias
  /\ Convolution.dropout c = dropout
  /\ ((Convolution.strides c = 2
       /\ Convolution.kernel_size c = kernel_size
       /\ Convolution.padding c = Some (MultiScaleDiscriminator.padding net))
      \/ (Convolution.strides c = 1
          /\ Convolution.kernel_size c = 1
          /\ Convolution.padding c = None
          /\ Convolution.out_channels c = out_channels)).
Proof.
  intros H HD Hc. apply MultiScale_init_Return in H as [_ ->].
  rewrite subnets_children in HD. apply in_map_iff in HD as (i & <- & _).
  rewrite subnet_children in Hc. apply in_app_iff in Hc as [Hc|[<-|[]]].
  - apply in_map_iff in Hc as (l & <- & _).
    repeat split. left. repeat split.
  - repeat split. right. repeat split.
Qed.

Lemma X8_terminal_layer_of_the_second_scale :
  Convolution.spatial_dims
    (Arch.final_conv 2 8 3 1 "LEAKYRELU" "instance" false (1 # 10) 6) = 2
  /\ Convolution.act
       (Arch.final_conv 2 8 3 1 "LEAKYRELU" "instance" false (1 # 10) 6)
     = "LEAKYRELU"
  /\ Convolution.norm
       (Arch.final_conv 2 8 3 1 "LEAKYRELU" "instance" false (1 # 10) 6)
     = "instance".
Proof.
  destruct (X8_every_layer_carries_the_configuration
              2 3 2 8 3 1 3 "LEAKYRELU" "instance" false (1 # 10) 256
              (MultiScaleDiscriminator.mk 2 (PyInt 3) 8 [1; 1]
                 (Arch.subnets 2 8 3 1 3 "LEAKYRELU" "instance" false [1; 1]
                    (1 # 10) 3 2))
              (Arch.subnet 2 8 3 1 3 "LEAKYRELU" "instance" false [1; 1]
                 (1 # 10) 3 1)
              (Arch.final_conv 2 8 3 1 "LEAKYRELU" "instance" false (1 # 10) 6)
              ltac:(vm_compute; reflexivity)
              ltac:(right; left; reflexivity)
              ltac:(vm_compute; tauto))
    as (H1 & H2 & H3 & _).
  now repeat split.
Defined.

(** ** The forward passes on arbitrary module values *)

Lemma layer_outputs_nth {Tensor : Type}
    (apply : Convolution.t -> Tensor -> Tensor)
    (cs : list Convolution.t) (x : Tensor) (l : nat) (c : Convolution.t) :
  nth_error cs l = Some c ->
  nth_error (Arch.layer_outputs apply cs x) l
  = Some (apply c match l with
                  | O => x
                  | S l' => nth l' (Arch.layer_outputs apply cs x) x
                  end).
Proof.
  revert x l. induction cs as [|c0 cs IH]; intros x l H.
  - destruct l; discriminate H.
  - destruct l as [|l'].
    + injection H as <-. reflexivity.
    + cbn [nth_error Arch.layer_outputs] in *.
      rewrite (IH (apply c0 x) l' H). do 2 f_equal.
      destruct l' as [|l'']; [reflexivity|].
      cbn [nth]. apply nth_indep.
      rewrite layer_outputs_length.
      assert (nth_error cs l'' <> None); [|now apply nth_error_Some].
      intros E. apply nth_error_None in E.
      assert (nth_error cs (S l'') <> None) by congruence.
      apply nth_error_Some in H0. lia.
Qed.

(** X9: the forward pass of a sub-discriminator, on any sequence of
    registered layers: there is one output per layer; the first layer is
    applied to the input and every later layer to the output of the layer
    before it; the result without features is the last output - the input
    itself when no layer is registered. *)
Theorem X9_each_layer_is_applied_to_the_previous_output
    {Tensor : Type} (apply : Convolution.t -> Tensor -> Tensor)
    (self : NLayerDiscriminator.t) (x : Tensor) :
  length (NLayerDiscriminator.forward apply self x true)
  = length (NLayerDiscriminator.children self)
  /\ (forall l c,
        nth_error (NLayerDiscriminator.children self) l = Some c ->
        nth_error (NLayerDiscriminator.forward apply self x true) l
        = Some (apply c
                  match l with
                  | O => x
                  | S l' => nth l' (NLayerDiscriminator.forward apply self x true) x
                  end))
  /\ NLayerDiscriminator.forward apply self x false
     = last (NLayerDiscriminator.forward apply self x true) x.
Proof.
  rewrite NLayer_forward_features, NLayer_forward_terminal.
  split; [apply layer_outputs_length|]. split; [|reflexivity].
  intros l c H. now apply layer_outputs_nth.
Qed.

Lemma scales_forward_empty {Tensor : Type}
    (apply : Convolution.t -> Tensor -> Tensor)
    (Ds : list NLayerDiscriminator.t) (i : Tensor)
    (out : list Tensor) (feats : list (list Tensor)) :
  Exists (fun D => NLayerDiscriminator.children D = []) Ds ->
  fst (for_ Ds (out, feats)
         (MultiScaleDiscriminator.forward_step apply i true) tt)
  = Raise (IndexError "list index out of range").
Proof.
  revert out feats. induction Ds as [|D Ds IH]; intros out feats H.
  - inversion H.
  - cbn [for_]. unfold bind at 1.
    cbn [MultiScaleDiscriminator.forward_step].
    unfold bind at 1. unfold lift at 1.
    rewrite NLayer_forward_features.
    destruct (NLayerDiscriminator.children D) as [|c cs] eqn:E.
    + reflexivity.
    + rewrite (py_last_ok _ i) by discriminate.
      cbn [ret]. apply IH.
      apply Exists_cons in H as [H|H]; [congruence|exact H].
Qed.

(** X10: the forward pass of the multi-scale discriminator, on any sequence
    of registered sub-discriminators.  Without features it never raises.  With
    features it returns when every sub-discriminator has at least one layer,
    and raises [IndexError] (from [out_D[-1]] on an empty list) as soon as one
    has none. *)
Theorem X10_forward_raises_only_on_a_scale_without_layers
    {Tensor : Type} (apply : Convolution.t -> Tensor -> Tensor)
    (self : MultiScaleDiscriminator.t) (i : Tensor) :
  MultiScaleDiscriminator.forward apply self i false
  = Ok (map (fun D => NLayerDiscriminator.forward apply D i false)
            (MultiScaleDiscriminator.children self))
  /\ (Forall (fun D => NLayerDiscriminator.children D <> [])
        (MultiScaleDiscriminator.children self) ->
      MultiScaleDiscriminator.forward apply self i true
      = Ok (map (fun D => NLayerDiscriminator.forward apply D i false)
                (MultiScaleDiscriminator.children self),
            map (fun D => removelast (NLayerDiscriminator.forward apply D i true))
                (MultiScaleDiscriminator.children self)))
  /\ (Exists (fun D => NLayerDiscriminator.children D = [])
        (MultiScaleDiscriminator.children self) ->
      MultiScaleDiscriminator.forward apply self i true
      = Raise (IndexError "list index out of range")).
Proof.
  split; [apply MultiScale_forward_plain|]. split.
  - apply MultiScale_forward_features.
  - intros H. unfold MultiScaleDiscriminator.forward.
    now rewrite scales_forward_empty.
Qed.

Lemma X10_a_scale_stripped_of_its_layers :
  MultiScaleDiscriminator.forward Shape.apply
    (MultiScaleDiscriminator.mk 2 (PyInt 3) 8 [1; 1]
       [("discriminator_0",
         Arch.subnet 2 8 3 1 3 "LEAKYRELU" "instance" false [1; 1] (1 # 10) 3 0);
        ("discriminator_1", NLayerDiscriminator.mk (PyInt 6) 8 [])])
    [1; 3; 256; 512] true
  = Raise (IndexError "list index out of range").
Proof.
  apply (X10_forward_raises_only_on_a_scale_without_layers Shape.apply
           (MultiScaleDiscriminator.mk 2 (PyInt 3) 8 [1; 1]
              [("discriminator_0",
                Arch.subnet 2 8 3 1 3 "LEAKYRELU" "instance" false [1; 1]
                  (1 # 10) 3 0);
               ("discriminator_1", NLayerDiscriminator.mk (PyInt 6) 8 [])])
           [1; 3; 256; 512]).
  apply Exists_cons_tl, Exists_cons_hd. reflexivity.
Defined.

Lemma empty_children_dec (D : NLayerDiscriminator.t) :
  {NLayerDiscriminator.children D <> []} + {~ NLayerDiscriminator.children D <> []}.
Proof.
  destruct (NLayerDiscriminator.children D); [right|left]; [tauto|discriminate].
Qed.

(** X11: whenever the forward pass with features returns, on any module
    value, both results have one entry per sub-discriminator, and for every
    scale the feature list followed by the terminal output is exactly what
    the sub-discriminator returns for the same input: nothing is dropped or
    reordered, and the terminal output is the one computed without
    features. *)
Theorem X11_features_and_terminal_output_split_the_layer_outputs
    {Tensor : Type} (apply : Convolution.t -> Tensor -> Tensor)
    (self : MultiScaleDiscriminator.t) (i : Tensor)
    (out : list Tensor) (intermediate_features : list (list Tensor)) :
  MultiScaleDiscriminator.forward apply self i true
  = Ok (out, intermediate_features) ->
  length out = length (MultiScaleDiscriminator.children self)
  /\ length intermediate_features
     = length (MultiScaleDiscriminator.children self)
  /\ forall j D,
       nth_error (MultiScaleDiscriminator.children self) j = Some D ->
       exists out_j features_j,
         nth_error out j = Some out_j
         /\ nth_error intermediate_features j = Some features_j
         /\ features_j ++ [out_j] = NLayerDiscriminator.forward apply D i true
         /\ out_j = NLayerDiscriminator.forward apply D i false.
Proof.
  intros H.
  destruct (Forall_Exists_dec _ empty_children_dec
              (MultiScaleDiscriminator.children self)) as [Hall|Hex].
  - rewrite MultiScale_forward_features in H by exact Hall.
    injection H as <- <-. rewrite !length_map.
    split; [reflexivity|]. split; [reflexivity|].
    intros j D Hj.
    exists (NLayerDiscriminator.forward apply D i false),
      (removelast (NLayerDiscriminator.forward apply D i true)).
    split; [|split; [|split]].
    + rewrite nth_error_map, Hj. reflexivity.
    + rewrite nth_error_map, Hj. reflexivity.
    + rewrite NLayer_forward_terminal, NLayer_forward_features.
      symmetry. apply app_removelast_last.
      intros E. apply (f_equal (@length _)) in E.
      rewrite layer_outputs_length in E.
      apply Forall_forall with (x := D) in Hall; [|eapply nth_error_In, Hj].
      destruct (NLayerDiscriminator.children D); [now apply Hall|discriminate].
    + reflexivity.
  - exfalso. unfold MultiScaleDiscriminator.forward in H.
    rewrite scales_forward_empty in H; [discriminate H|].
    apply Exists_exists in Hex as (D & HD & HE).
    apply Exists_exists. exists D. split; [exact HD|].
    destruct (NLayerDiscriminator.children D); [reflexivity|].
    exfalso. apply HE. discriminate.
Qed.

Lemma X11_on_the_test_network :
  length [[1; 1; 32; 64]; [1; 1; 4; 8]]
  = length
      (MultiScaleDiscriminator.children
         (MultiScaleDiscriminator.mk 2 (PyInt 3) 8 [1; 1]
            (Arch.subnets 2 8 3 1 3 "LEAKYRELU" "instance" false [1; 1]
               (1 # 10) 3 2))).
Proof.
  apply (X11_features_and_terminal_output_split_the_layer_outputs Shape.apply
           (MultiScaleDiscriminator.mk 2 (PyInt 3) 8 [1; 1]
              (Arch.subnets 2 8 3 1 3 "LEAKYRELU" "instance" false [1; 1]
                 (1 # 10) 3 2))
           [1; 3; 256; 512]
           [[1; 1; 32; 64]; [1; 1; 4; 8]]
           [[[1; 16; 128; 256]; [1; 32; 64; 128]; [1; 64; 32; 64]];
            [[1; 16; 128; 256]; [1; 32; 64; 128]; [1; 64; 32; 64];
             [1; 128; 16; 32]; [1; 256; 8; 16]; [1; 512; 4; 8]]]).
  vm_compute. reflexivity.
Defined.

(** ** Shapes of the intermediate features *)

Lemma firstn_seq (n start len : nat) :
  firstn n (seq start len) = seq start (Nat.min n len).
Proof.
  revert start len. induction n as [|n IH]; intros start [|len];
    try reflexivity.
  simpl. now rewrite IH.
Qed.

Lemma nth_error_last {A : Type} (l : list A) (d : A) :
  l <> [] -> nth_error l (pred (length l)) = Some (last l d).
Proof.
  intros H. destruct (exists_last H) as (l' & a & ->).
  rewrite last_last, length_app, nth_error_app2 by (simpl; lia).
  simpl. replace (pred (length l' + 1) - length l')%nat with 0%nat by lia.
  reflexivity.
Qed.

(** Output [l] of a stack is the last output of its first [l + 1] layers. *)
Lemma layer_outputs_nth_prefix {Tensor : Type}
    (apply : Convolution.t -> Tensor -> Tensor)
    (cs : list Convolution.t) (x : Tensor) (l : nat) :
  (l < length cs)%nat ->
  nth_error (Arch.layer_outputs apply cs x) l
  = Some (last (Arch.layer_outputs apply (firstn (S l) cs) x) x).
Proof.
  intros Hl. rewrite <- (firstn_skipn (S l) cs) at 1.
  rewrite layer_outputs_app.
  assert (Hlen : length (Arch.layer_outputs apply (firstn (S l) cs) x) = S l)
    by (rewrite layer_outputs_length, length_firstn; lia).
  rewrite nth_error_app1 by lia.
  assert (E := nth_error_last
                 (Arch.layer_outputs apply (firstn (S l) cs) x) x).
  rewrite Hlen in E. apply E.
  intros E'. rewrite E' in Hlen. discriminate Hlen.
Qed.

Lemma down_layers_shape_channels
    (spatial_dims n_channels in_channels kernel_size : Z)
    (activation norm : string) (bias : bool) (dropout : Q)
    (len : nat) (batch ch : Z) (sp : list Z) :
  length sp = Z.to_nat spatial_dims ->
  last (Arch.layer_outputs Shape.apply
          (map (Arch.down_layer spatial_dims n_channels in_channels kernel_size
                  activation norm bias
                  (repeat (int_half (kernel_size - 1)) (Z.to_nat spatial_dims))
                  dropout)
               (map Z.of_nat (seq 0 (S len))))
          (batch :: ch :: sp))
       (batch :: ch :: sp)
  = batch :: n_channels * 2 ^ (Z.of_nat len + 1)
      :: map (Nat.iter (S len)
                (fun d => Shape.conv_extent d kernel_size 2
                            (int_half (kernel_size - 1))))
             sp.
Proof.
  intros Hlen.
  rewrite seq_S, !map_app, layer_outputs_app. cbn [map Arch.layer_outputs].
  rewrite last_last.
  destruct (down_layers_shape spatial_dims n_channels in_channels kernel_size
              activation norm bias dropout len batch ch sp Hlen) as [ch' E].
  rewrite E.
  rewrite down_layer_shape by (now rewrite length_map).
  now rewrite map_iter.
Qed.

(** X12: shapes of the intermediate features.  For a constructed
    discriminator, a kernel size of at least 1 and an input with
    [spatial_dims] spatial axes, feature [l] of scale [j] (the output of
    stride-2 layer [l]) keeps the batch extent, has
    [n_channels * 2 ^ (l + 1)] channels, and has every spatial extent divided
    by [2 ^ (l + 1)] - rounded down for an even kernel size, up for an odd
    one. *)
Theorem X12_shapes_of_the_intermediate_features
    (num_D n spatial_dims n_channels in_channels out_channels kernel_size : Z)
    (activation norm : string) (bias : bool) (dropout : Q)
    (minimum_size_im : Z) (net : MultiScaleDiscriminator.t)
    (batch ch : Z) (sp : list Z) (j l : Z) :
  MultiScaleDiscriminator.__init__ num_D (PyInt n) spatial_dims n_channels
    in_channels out_channels kernel_size activation norm bias dropout
    minimum_size_im = Return net ->
  1 <= kernel_size -> length sp = Z.to_nat spatial_dims ->
  0 <= j < num_D -> 0 <= l < n * (j + 1) ->
  exists out intermediate_features features_j,
    MultiScaleDiscriminator.forward Shape.apply net (batch :: ch :: sp) true
    = Ok (out, intermediate_features)
    /\ nth_error intermediate_features (Z.to_nat j) = Some features_j
    /\ nth_error features_j (Z.to_nat l)
       = Some (batch :: n_channels * 2 ^ (l + 1)
                 :: map (fun d =>
                           if Z.even kernel_size then d / 2 ^ (l + 1)
                           else (d + 2 ^ (l + 1) - 1) / 2 ^ (l + 1))
                        sp).
Proof.
  intros H Hks Hlen Hj Hl. apply MultiScale_init_Return in H as [_ ->].
  do 3 eexists. split; [|split].
  - apply MultiScale_forward_features.
    rewrite subnets_children. apply subnets_nonempty.
  - rewrite nth_error_map, subnets_children, nth_error_map, range_nth
      by exact Hj.
    reflexivity.
  - cbn [option_map].
    rewrite NLayer_forward_features, subnet_children, layer_outputs_app.
    cbn [Arch.layer_outputs]. rewrite removelast_last.
    rewrite layer_outputs_nth_prefix
      by (rewrite length_map, range_length; lia).
    unfold range. rewrite !firstn_map, firstn_seq.
    replace (Nat.min (S (Z.to_nat l)) (Z.to_nat (n * (j + 1))))
      with (S (Z.to_nat l)) by lia.
    rewrite list_repeat_singleton, down_layers_shape_channels by exact Hlen.
    rewrite Z2Nat.id by lia. do 3 f_equal.
    apply map_ext. intros d.
    replace (S (Z.to_nat l)) with (Z.to_nat (l + 1)) by lia.
    apply iter_conv_extent; lia.
Qed.

Lemma X12_second_feature_of_the_second_scale :
  exists out intermediate_features features_j,
    MultiScaleDiscriminator.forward Shape.apply
      (MultiScaleDiscriminator.mk 2 (PyInt 3) 8 [1; 1]
         (Arch.subnets 2 8 3 1 3 "LEAKYRELU" "instance" false [1; 1]
            (1 # 10) 3 2))
      [1; 3; 256; 512] true
    = Ok (out, intermediate_features)
    /\ nth_error intermediate_features (Z.to_nat 1) = Some features_j
    /\ nth_error features_j (Z.to_nat 4)
       = Some (1 :: 8 * 2 ^ (4 + 1)
                 :: map (fun d =>
                           if Z.even 3 then d / 2 ^ (4 + 1)
                           else (d + 2 ^ (4 + 1) - 1) / 2 ^ (4 + 1))
                        [256; 512]).
Proof.
  apply (X12_shapes_of_the_intermediate_features
           2 3 2 8 3 1 3 "LEAKYRELU" "instance" false (1 # 10) 256
           (MultiScaleDiscriminator.mk 2 (PyInt 3) 8 [1; 1]
              (Arch.subnets 2 8 3 1 3 "LEAKYRELU" "instance" false [1; 1]
                 (1 # 10) 3 2))
           1 3 [256; 512] 1 4).
  - vm_compute. reflexivity.
  - lia.
  - reflexivity.
  - lia.
  - lia.
Defined.

(** ** What the size check buys *)

(** X13: the purpose of [minimum_size_im].  When construction returned
    (layer count [n_layers_D >= 0], kernel size at least 1) and every spatial
    extent of the input is at least [minimum_size_im], no scale shrinks the
    input away: every terminal output has the batch extent of the input,
    [out_channels] channels, as many spatial axes as the input, and every
    spatial extent at least 1. *)
Theorem X13_inputs_of_minimum_size_never_collapse
    (num_D n spatial_dims n_channels in_channels out_channels kernel_size : Z)
    (activation norm : string) (bias : bool) (dropout : Q)
    (minimum_size_im : Z) (net : MultiScaleDiscriminator.t)
    (batch ch : Z) (sp : list Z) :
  MultiScaleDiscriminator.__init__ num_D (PyInt n) spatial_dims n_channels
    in_channels out_channels kernel_size activation norm bias dropout
    minimum_size_im = Return net ->
  0 <= n -> 1 <= kernel_size -> length sp = Z.to_nat spatial_dims ->
  (forall d, In d sp -> minimum_size_im <= d) ->
  exists out,
    MultiScaleDiscriminator.forward Shape.apply net (batch :: ch :: sp) false
    = Ok out
    /\ forall o, In o out ->
         exists sp',
           o = batch :: out_channels :: sp'
           /\ length sp' = length sp
           /\ forall d', In d' sp' -> 1 <= d'.
Proof.
  intros H Hn Hks Hlen Hmin.
  apply MultiScale_init_Return in H as [Hpass ->].
  eexists. split.
  - rewrite MultiScale_forward_plain, subnets_children.
    rewrite (terminal_shapes num_D n spatial_dims n_channels in_channels
               out_channels kernel_size activation norm bias dropout
               batch ch sp Hks Hn Hlen).
    reflexivity.
  - intros o Ho. apply in_map_iff in Ho as (j & <- & Hj).
    apply range_In in Hj. eexists. split; [reflexivity|].
    split; [apply length_map|].
    intros d' Hd'. apply in_map_iff in Hd' as (d & <- & Hd).
    assert (Hk : 0 <= n * (j + 1)) by (apply Z.mul_nonneg_nonneg; lia).
    assert (Hfit : 2 ^ (n * (j + 1)) <= d).
    { apply Z.le_trans with (m := minimum_size_im); [|now apply Hmin].
      apply size_check_passes_iff; [exact Hk|]. now apply Hpass. }
    assert (Hpos : 0 < 2 ^ (n * (j + 1))) by (apply Z.pow_pos_nonneg; lia).
    assert (Hdown : 1 <= d / 2 ^ (n * (j + 1)))
      by (apply Z.div_le_lower_bound; lia).
    destruct (Z.even kernel_size); [exact Hdown|].
    apply Z.le_trans with (m := d / 2 ^ (n * (j + 1))); [exact Hdown|].
    apply Z.div_le_mono; lia.
Qed.

Lemma X13_on_an_image_of_odd_extents :
  exists out,
    MultiScaleDiscriminator.forward Shape.apply
      (MultiScaleDiscriminator.mk 2 (PyInt 3) 8 [1; 1]
         (Arch.subnets 2 8 3 1 3 "LEAKYRELU" "instance" false [1; 1]
            (1 # 10) 3 2))
      [1; 3; 257; 513] false
    = Ok out
    /\ forall o, In o out ->
         exists sp',
           o = 1 :: 1 :: sp'
           /\ length sp' = length [257; 513]
           /\ forall d', In d' sp' -> 1 <= d'.
Proof.
  apply (X13_inputs_of_minimum_size_never_collapse
           2 3 2 8 3 1 3 "LEAKYRELU" "instance" false (1 # 10) 256).
  - vm_compute. reflexivity.
  - lia.
  - lia.
  - reflexivity.
  - intros d [<-|[<-|[]]]; lia.
Defined.

(** ** Size and nesting of the scales *)

Lemma subnets_total_layers
    (spatial_dims n_channels in_channels out_channels kernel_size : Z)
    (activation norm : string) (bias : bool) (padding : list Z) (dropout : Q)
    (n : Z) (m : nat) :
  0 <= n ->
  2 * Z.of_nat
        (length
           (flat_map NLayerDiscriminator.children
              (map (Arch.subnet spatial_dims n_channels in_channels
                      out_channels kernel_size activation norm bias padding
                      dropout n)
                   (map Z.of_nat (seq 0 m)))))
  = 2 * Z.of_nat m + n * Z.of_nat m * (Z.of_nat m + 1).
Proof.
  intros Hn. induction m as [|m IH].
  - simpl. lia.
  - rewrite seq_S, !map_app, flat_map_app, length_app. cbn [map flat_map].
    rewrite app_nil_r, subnet_children_length.
    rewrite Nat2Z.inj_add, Z.mul_add_distr_l, IH.
    rewrite Nat2Z.inj_succ, Z2Nat.id by (apply Z.mul_nonneg_nonneg; lia).
    cbn [Nat.add]. lia.
Qed.

(** X14: the number of convolution blocks of a constructed discriminator
    grows quadratically with the number of scales: with layer count
    [n_layers_D >= 0] and [num_D >= 0] scales there are
    [num_D + n_layers_D * num_D * (num_D + 1) / 2] blocks in all (one
    terminal layer per scale, and [n_layers_D * (j + 1)] stride-2 layers in
    scale [j]). *)
Theorem X14_total_number_of_convolution_blocks
    (num_D n spatial_dims n_channels in_channels out_channels kernel_size : Z)
    (activation norm : string) (bias : bool) (dropout : Q)
    (minimum_size_im : Z) (net : MultiScaleDiscriminator.t) :
  MultiScaleDiscriminator.__init__ num_D (PyInt n) spatial_dims n_channels
    in_channels out_channels kernel_size activation norm bias dropout
    minimum_size_im = Return net ->
  0 <= n -> 0 <= num_D ->
  2 * Z.of_nat
        (length (flat_map NLayerDiscriminator.children
                   (MultiScaleDiscriminator.children net)))
  = 2 * num_D + n * num_D * (num_D + 1).
Proof.
  intros H Hn HD. apply MultiScale_init_Return in H as [_ ->].
  rewrite subnets_children. unfold range.
  rewrite subnets_total_layers by exact Hn.
  rewrite Z2Nat.id by exact HD. reflexivity.
Qed.

Lemma X14_blocks_of_the_test_network :
  2 * Z.of_nat
        (length
           (flat_map NLayerDiscriminator.children
              (MultiScaleDiscriminator.children
                 (MultiScaleDiscriminator.mk 2 (PyInt 3) 8 [1; 1]
                    (Arch.subnets 2 8 3 1 3 "LEAKYRELU" "instance" false
                       [1; 1] (1 # 10) 3 2)))))
  = 2 * 2 + 3 * 2 * (2 + 1).
Proof.
  apply (X14_total_number_of_convolution_blocks
           2 3 2 8 3 1 3 "LEAKYRELU" "instance" false (1 # 10) 256).
  - vm_compute. reflexivity.
  - lia.
  - lia.
Defined.

(** X15: the scales are nested.  In a constructed discriminator with layer
    count [n_layers_D >= 0], the stride-2 layers of scale [j] - names and
    configurations - are the first [n_layers_D * (j + 1)] registered layers
    of every deeper scale [j']: a deeper scale repeats the shallower one up
    to its terminal layer and goes on from there. *)
Theorem X15_a_deeper_scale_extends_a_shallower_one
    (num_D n spatial_dims n_channels in_channels out_channels kernel_size : Z)
    (activation norm : string) (bias : bool) (dropout : Q)
    (minimum_size_im : Z) (net : MultiScaleDiscriminator.t) (j j' : Z) :
  MultiScaleDiscriminator.__init__ num_D (PyInt n) spatial_dims n_channels
    in_channels out_channels kernel_size activation norm bias dropout
    minimum_size_im = Return net ->
  0 <= n -> 0 <= j <= j' -> j' < num_D ->
  exists D D',
    nth_error (MultiScaleDiscriminator.children net) (Z.to_nat j) = Some D
    /\ nth_error (MultiScaleDiscriminator.children net) (Z.to_nat j') = Some D'
    /\ firstn (Z.to_nat (n * (j + 1))) (NLayerDiscriminator._modules D')
       = removelast (NLayerDiscriminator._modules D).
Proof.
  intros H Hn Hj Hj'. apply MultiScale_init_Return in H as [_ ->].
  do 2 eexists. split; [|split].
  - rewrite subnets_children, nth_error_map, range_nth by lia. reflexivity.
  - rewrite subnets_children, nth_error_map, range_nth by lia. reflexivity.
  - cbn [option_map]. unfold Arch.subnet, Arch.stack, Arch.down_layers, range.
    cbn [NLayerDiscriminator._modules].
    rewrite removelast_last, firstn_app, !firstn_map, firstn_seq.
    rewrite !length_map, length_seq.
    assert (Hle : (Z.to_nat (n * (j + 1)) <= Z.to_nat (n * (j' + 1)))%nat).
    { apply Z2Nat.inj_le; try (apply Z.mul_nonneg_nonneg; lia).
      apply Z.mul_le_mono_nonneg_l; lia. }
    replace (Z.to_nat (n * (j + 1)) - Z.to_nat (n * (j' + 1)))%nat
      with 0%nat by lia.
    rewrite Nat.min_l by exact Hle.
    cbn [firstn]. now rewrite app_nil_r.
Qed.

Lemma X15_the_first_scale_inside_the_second :
  exists D D',
    nth_error
      (MultiScaleDiscriminator.children
         (MultiScaleDiscriminator.mk 2 (PyInt 3) 8 [1; 1]
            (Arch.subnets 2 8 3 1 3 "LEAKYRELU" "instance" false [1; 1]
               (1 # 10) 3 2)))
      (Z.to_nat 0) = Some D
    /\ nth_error
         (MultiScaleDiscriminator.children
            (MultiScaleDiscriminator.mk 2 (PyInt 3) 8 [1; 1]
               (Arch.subnets 2 8 3 1 3 "LEAKYRELU" "instance" false [1; 1]
                  (1 # 10) 3 2)))
         (Z.to_nat 1) = Some D'
    /\ firstn (Z.to_nat (3 * (0 + 1))) (NLayerDiscriminator._modules D')
       = removelast (NLayerDiscriminator._modules D).
Proof.
  apply (X15_a_deeper_scale_extends_a_shallower_one
           2 3 2 8 3 1 3 "LEAKYRELU" "instance" false (1 # 10) 256).
  - vm_compute. reflexivity.
  - lia.
  - lia.
  - lia.
Defined.
